(** * zl: a zap based logging facade

  Shallow embedding of package [zl] (files [zl.go], [options.go] and
  [logger.go]) and the properties of its output routing, field
  enrichment and lifecycle.

  Package-level variables become the record [State]; every function that
  reads or writes them, talks to the operating system or may stop the
  process is a computation of the monad [Go], which threads a [World]
  (variables, allocated loggers, effect trace) and ends in an [Outcome]. *)

From Stdlib Require Import ZArith String Ascii List Bool DecimalString.
From stdpp Require Import base option list strings gmap.
Import ListNotations.

Local Open Scope string_scope.
Local Open Scope Z_scope.

(** ** External collaborator: zapcore *)

Module zapcore.

(** [zapcore.Level], an [int8] enumeration. *)
Inductive Level : Type :=
| DebugLevel | InfoLevel | WarnLevel | ErrorLevel
| DPanicLevel | PanicLevel | FatalLevel.

(** The [int8] value of a level. *)
Definition Level_int8 (l : Level) : Z :=
  match l with
  | DebugLevel => -1 | InfoLevel => 0 | WarnLevel => 1 | ErrorLevel => 2
  | DPanicLevel => 3 | PanicLevel => 4 | FatalLevel => 5
  end.

Definition Level_eqb (a b : Level) : bool := Level_int8 a =? Level_int8 b.

(** [func (l Level) Enabled(lvl Level) bool { return lvl >= l }] *)
Definition Enabled (l lvl : Level) : bool := Level_int8 l <=? Level_int8 lvl.

Definition CapitalString (l : Level) : string :=
  match l with
  | DebugLevel => "DEBUG" | InfoLevel => "INFO" | WarnLevel => "WARN"
  | ErrorLevel => "ERROR" | DPanicLevel => "DPANIC" | PanicLevel => "PANIC"
  | FatalLevel => "FATAL"
  end.

(** [const OmitKey], the empty string. *)
Definition OmitKey : string := EmptyString.

Inductive LevelEncoder : Type := encodeLevel | CapitalLevelEncoder.
Inductive TimeEncoder : Type := RFC3339NanoTimeEncoder.
Inductive DurationEncoder : Type := StringDurationEncoder.

(** A caller encoder is a function value in Go; the two the package can
    install are the short one and the repository one built from a source
    directory and a URL. *)
Inductive CallerEncoder : Type :=
| ShortCallerEncoder
| RepositoryCallerEncoder (dir url : string).

Record EncoderConfig : Type := {
  MessageKey : string;
  LevelKey : string;
  TimeKey : string;
  NameKey : string;
  CallerKey : string;
  FunctionKey : string;
  StacktraceKey : string;
  EncodeLevel : LevelEncoder;
  EncodeTime : TimeEncoder;
  EncodeDuration : DurationEncoder;
  EncodeCaller : CallerEncoder
}.

(** Destination of encoded bytes: the two console streams, or the rotating
    file built from the rotation settings. *)
Record Rotator : Type := {
  Filename : string;
  MaxSize : Z;
  MaxBackups : Z;
  MaxAge : Z;
  LocalTime : bool;
  Compress : bool
}.

Inductive WriteSyncer : Type :=
| Stdout
| Stderr
| RotatingFile (r : Rotator).

Definition is_console (w : WriteSyncer) : bool :=
  match w with Stdout | Stderr => true | RotatingFile _ => false end.

Definition is_file (w : WriteSyncer) : bool := negb (is_console w).

(** The names the JSON encoder writes on its own for an entry: every key of
    the configuration that is not [OmitKey], the name only for a named
    logger, the stack trace only when one was captured. *)
Definition keep (k : string) : list string :=
  if String.eqb k OmitKey then [] else [k].

Definition entry_keys (enc : EncoderConfig) (named stack : bool) : list string :=
  keep (LevelKey enc) ++ keep (TimeKey enc)
  ++ (if named then keep (NameKey enc) else [])
  ++ keep (CallerKey enc) ++ keep (FunctionKey enc)
  ++ keep (MessageKey enc)
  ++ (if stack then keep (StacktraceKey enc) else []).

End zapcore.

(** ** External collaborator: zap *)

Module zap.

Inductive Value : Type :=
| StringValue (s : string)
| IntValue (n : Z)
| ErrorValue (msg : string).

(** [zap.Field]: a key and a value. *)
Record Field : Type := { Key : string; Val : Value }.

Definition String (k v : string) : Field := {| Key := k; Val := StringValue v |}.
Definition Int (k : string) (n : Z) : Field := {| Key := k; Val := IntValue n |}.
Definition Error (msg : string) : Field := {| Key := "error"; Val := ErrorValue msg |}.

(** A [*zap.Logger] handle, as what it was built from: the core (encoder
    configuration, sinks, minimum level), the logger name and the fields
    attached by [With]. *)
Record Logger : Type := {
  enc : zapcore.EncoderConfig;
  sinks : list zapcore.WriteSyncer;
  level : zapcore.Level;
  name : string;
  context : list Field
}.

(** [zap.New(core, ...)] with [core = zapcore.NewCore(enc, syncers, lvl)]. *)
Definition New (e : zapcore.EncoderConfig) (ws : list zapcore.WriteSyncer)
    (lvl : zapcore.Level) : Logger :=
  {| enc := e; sinks := ws; level := lvl; name := EmptyString; context := [] |}.

Definition With (fs : list Field) (z : Logger) : Logger :=
  {| enc := enc z; sinks := sinks z; level := level z; name := name z;
     context := context z ++ fs |}.

(** [Named] adds a path segment to the name; segments are joined by
    periods and an empty segment changes nothing. *)
Definition Named (s : string) (z : Logger) : Logger :=
  if String.eqb s EmptyString then z
  else {| enc := enc z; sinks := sinks z; level := level z;
          name := (if String.eqb (name z) EmptyString then s
                   else String.append (name z) (String.append "." s));
          context := context z |}.

End zap.

(** ** Keys, levels and output modes ([options.go]) *)

(** [type Key string] *)
Definition Key : Type := string.

Definition MessageKey : Key := "message".
Definition LevelKey : Key := "level".
Definition TimeKey : Key := "time".
Definition CallerKey : Key := "caller".
Definition FunctionKey : Key := "function".
Definition StacktraceKey : Key := "stacktrace".
Definition VersionKey : Key := "version".
Definition HostnameKey : Key := "hostname".

(** Modelled from the spec: the declaration of [LoggerKey], which [zl.go]
  uses for the encoder's name key. The Key list of the data model calls
  this field "name" (as the declaration [NameKey Key = "name"] does). *)
Definition LoggerKey : Key := "name".

(** Modelled from the spec: the declaration of [PIDKey], which [zl.go]
  uses for the process id field. The data model names this field "pid". *)
Definition PIDKey : Key := "pid".

(** The Key values of the data model. *)
Definition encoderKeys : list Key :=
  [MessageKey; LevelKey; TimeKey; LoggerKey; CallerKey; FunctionKey; StacktraceKey].

Definition enrichmentKeys : list Key := [VersionKey; HostnameKey; PIDKey].

Definition allKeys : list Key := encoderKeys ++ enrichmentKeys.

(** [type Level int8], with the five constants taken from zapcore. *)
Abbreviation Level := zapcore.Level.

Definition DebugLevel : Level := zapcore.DebugLevel.
Definition InfoLevel : Level := zapcore.InfoLevel.
Definition WarnLevel : Level := zapcore.WarnLevel.
Definition ErrorLevel : Level := zapcore.ErrorLevel.
Definition FatalLevel : Level := zapcore.FatalLevel.

(** The five severities of the emission API. *)
Definition severities : list Level :=
  [DebugLevel; InfoLevel; WarnLevel; ErrorLevel; FatalLevel].

(** [type Output int], declared with [iota]. *)
Inductive Output : Type :=
  | PrettyOutput
  | ConsoleAndFileOutput
  | ConsoleOutput
  | FileOutput.

Definition Output_eqb (a b : Output) : bool :=
  match a, b with
  | PrettyOutput, PrettyOutput
  | ConsoleAndFileOutput, ConsoleAndFileOutput
  | ConsoleOutput, ConsoleOutput
  | FileOutput, FileOutput => true
  | _, _ => false
  end.



Definition outputStrings : list string :=
  ["Pretty"; "ConsoleAndFile"; "Console"; "File"].

Definition Output_index (o : Output) : nat :=
  match o with
  | PrettyOutput => 0 | ConsoleAndFileOutput => 1
  | ConsoleOutput => 2 | FileOutput => 3
  end%nat.

(** [func (o Output) String() string { return outputStrings[o] }] *)
Definition Output_String (o : Output) : string :=
  nth (Output_index o) outputStrings EmptyString.

(** ** Package-level variables ([zl.go])

    The console renderer is a collaborator outside these files; of a
    [*prettyLogger] only the prefix of its line printer is kept. *)

Record PrettyLogger : Type := { Prefix : string }.

(** Modelled from the spec: [newPrettyLogger], the constructor of the console
    companion renderer; a fresh renderer has no prefix. *)
Definition newPrettyLogger : PrettyLogger := {| Prefix := EmptyString |}.

(** The variables of the [var] block, followed by the file and rotation
    settings that [Cleanup] resets too. [once] is the done flag of the
    [sync.Once]; a [nil] pointer or function is [None]. *)
Record State : Type := {
  once : bool;
  pretty : option PrettyLogger;
  zapLogger : option zap.Logger;
  outputType : Output;
  version : string;
  severityLevel : zapcore.Level;
  callerEncoder : option zapcore.CallerEncoder;
  consoleFields : list string;
  omitKeys : list Key;
  isStdOut : bool;
  separator : string;
  pid : Z;
  fileName : string;
  maxSize : Z;
  maxBackups : Z;
  maxAge : Z;
  localTime : bool;
  compress : bool
}.

(** Assignment to one variable. *)
Definition set_once (v : bool) (s : State) : State :=
  {| once := v; pretty := pretty s; zapLogger := zapLogger s;
     outputType := outputType s; version := version s;
     severityLevel := severityLevel s; callerEncoder := callerEncoder s;
     consoleFields := consoleFields s; omitKeys := omitKeys s;
     isStdOut := isStdOut s; separator := separator s; pid := pid s;
     fileName := fileName s; maxSize := maxSize s;
     maxBackups := maxBackups s; maxAge := maxAge s;
     localTime := localTime s; compress := compress s |}.

Definition set_pretty (v : option PrettyLogger) (s : State) : State :=
  {| once := once s; pretty := v; zapLogger := zapLogger s;
     outputType := outputType s; version := version s;
     severityLevel := severityLevel s; callerEncoder := callerEncoder s;
     consoleFields := consoleFields s; omitKeys := omitKeys s;
     isStdOut := isStdOut s; separator := separator s; pid := pid s;
     fileName := fileName s; maxSize := maxSize s;
     maxBackups := maxBackups s; maxAge := maxAge s;
     localTime := localTime s; compress := compress s |}.

Definition set_zapLogger (v : option zap.Logger) (s : State) : State :=
  {| once := once s; pretty := pretty s; zapLogger := v;
     outputType := outputType s; version := version s;
     severityLevel := severityLevel s; callerEncoder := callerEncoder s;
     consoleFields := consoleFields s; omitKeys := omitKeys s;
     isStdOut := isStdOut s; separator := separator s; pid := pid s;
     fileName := fileName s; maxSize := maxSize s;
     maxBackups := maxBackups s; maxAge := maxAge s;
     localTime := localTime s; compress := compress s |}.

Definition set_outputType (v : Output) (s : State) : State :=
  {| once := once s; pretty := pretty s; zapLogger := zapLogger s;
     outputType := v; version := version s; severityLevel := severityLevel s;
     callerEncoder := callerEncoder s; consoleFields := consoleFields s;
     omitKeys := omitKeys s; isStdOut := isStdOut s;
     separator := separator s; pid := pid s; fileName := fileName s;
     maxSize := maxSize s; maxBackups := maxBackups s; maxAge := maxAge s;
     localTime := localTime s; compress := compress s |}.

Definition set_version (v : string) (s : State) : State :=
  {| once := once s; pretty := pretty s; zapLogger := zapLogger s;
     outputType := outputType s; version := v;
     severityLevel := severityLevel s; callerEncoder := callerEncoder s;
     consoleFields := consoleFields s; omitKeys := omitKeys s;
     isStdOut := isStdOut s; separator := separator s; pid := pid s;
     fileName := fileName s; maxSize := maxSize s;
     maxBackups := maxBackups s; maxAge := maxAge s;
     localTime := localTime s; compress := compress s |}.

Definition set_severityLevel (v : zapcore.Level) (s : State) : State :=
  {| once := once s; pretty := pretty s; zapLogger := zapLogger s;
     outputType := outputType s; version := version s; severityLevel := v;
     callerEncoder := callerEncoder s; consoleFields := consoleFields s;
     omitKeys := omitKeys s; isStdOut := isStdOut s;
     separator := separator s; pid := pid s; fileName := fileName s;
     maxSize := maxSize s; maxBackups := maxBackups s; maxAge := maxAge s;
     localTime := localTime s; compress := compress s |}.

Definition set_callerEncoder (v : option zapcore.CallerEncoder) (s : State) : State :=
  {| once := once s; pretty := pretty s; zapLogger := zapLogger s;
     outputType := outputType s; version := version s;
     severityLevel := severityLevel s; callerEncoder := v;
     consoleFields := consoleFields s; omitKeys := omitKeys s;
     isStdOut := isStdOut s; separator := separator s; pid := pid s;
     fileName := fileName s; maxSize := maxSize s;
     maxBackups := maxBackups s; maxAge := maxAge s;
     localTime := localTime s; compress := compress s |}.

Definition set_consoleFields (v : list string) (s : State) : State :=
  {| once := once s; pretty := pretty s; zapLogger := zapLogger s;
     outputType := outputType s; version := version s;
     severityLevel := severityLevel s; callerEncoder := callerEncoder s;
     consoleFields := v; omitKeys := omitKeys s; isStdOut := isStdOut s;
     separator := separator s; pid := pid s; fileName := fileName s;
     maxSize := maxSize s; maxBackups := maxBackups s; maxAge := maxAge s;
     localTime := localTime s; compress := compress s |}.

Definition set_omitKeys (v : list Key) (s : State) : State :=
  {| once := once s; pretty := pretty s; zapLogger := zapLogger s;
     outputType := outputType s; version := version s;
     severityLevel := severityLevel s; callerEncoder := callerEncoder s;
     consoleFields := consoleFields s; omitKeys := v; isStdOut := isStdOut s;
     separator := separator s; pid := pid s; fileName := fileName s;
     maxSize := maxSize s; maxBackups := maxBackups s; maxAge := maxAge s;
     localTime := localTime s; compress := compress s |}.

Definition set_isStdOut (v : bool) (s : State) : State :=
  {| once := once s; pretty := pretty s; zapLogger := zapLogger s;
     outputType := outputType s; version := version s;
     severityLevel := severityLevel s; callerEncoder := callerEncoder s;
     consoleFields := consoleFields s; omitKeys := omitKeys s; isStdOut := v;
     separator := separator s; pid := pid s; fileName := fileName s;
     maxSize := maxSize s; maxBackups := maxBackups s; maxAge := maxAge s;
     localTime := localTime s; compress := compress s |}.

Definition set_separator (v : string) (s : State) : State :=
  {| once := once s; pretty := pretty s; zapLogger := zapLogger s;
     outputType := outputType s; version := version s;
     severityLevel := severityLevel s; callerEncoder := callerEncoder s;
     consoleFields := consoleFields s; omitKeys := omitKeys s;
     isStdOut := isStdOut s; separator := v; pid := pid s;
     fileName := fileName s; maxSize := maxSize s;
     maxBackups := maxBackups s; maxAge := maxAge s;
     localTime := localTime s; compress := compress s |}.

Definition set_pid (v : Z) (s : State) : State :=
  {| once := once s; pretty := pretty s; zapLogger := zapLogger s;
     outputType := outputType s; version := version s;
     severityLevel := severityLevel s; callerEncoder := callerEncoder s;
     consoleFields := consoleFields s; omitKeys := omitKeys s;
     isStdOut := isStdOut s; separator := separator s; pid := v;
     fileName := fileName s; maxSize := maxSize s;
     maxBackups := maxBackups s; maxAge := maxAge s;
     localTime := localTime s; compress := compress s |}.

Definition set_fileName (v : string) (s : State) : State :=
  {| once := once s; pretty := pretty s; zapLogger := zapLogger s;
     outputType := outputType s; version := version s;
     severityLevel := severityLevel s; callerEncoder := callerEncoder s;
     consoleFields := consoleFields s; omitKeys := omitKeys s;
     isStdOut := isStdOut s; separator := separator s; pid := pid s;
     fileName := v; maxSize := maxSize s; maxBackups := maxBackups s;
     maxAge := maxAge s; localTime := localTime s; compress := compress s |}.

Definition set_maxSize (v : Z) (s : State) : State :=
  {| once := once s; pretty := pretty s; zapLogger := zapLogger s;
     outputType := outputType s; version := version s;
     severityLevel := severityLevel s; callerEncoder := callerEncoder s;
     consoleFields := consoleFields s; omitKeys := omitKeys s;
     isStdOut := isStdOut s; separator := separator s; pid := pid s;
     fileName := fileName s; maxSize := v; maxBackups := maxBackups s;
     maxAge := maxAge s; localTime := localTime s; compress := compress s |}.

Definition set_maxBackups (v : Z) (s : State) : State :=
  {| once := once s; pretty := pretty s; zapLogger := zapLogger s;
     outputType := outputType s; version := version s;
     severityLevel := severityLevel s; callerEncoder := callerEncoder s;
     consoleFields := consoleFields s; omitKeys := omitKeys s;
     isStdOut := isStdOut s; separator := separator s; pid := pid s;
     fileName := fileName s; maxSize := maxSize s; maxBackups := v;
     maxAge := maxAge s; localTime := localTime s; compress := compress s |}.

Definition set_maxAge (v : Z) (s : State) : State :=
  {| once := once s; pretty := pretty s; zapLogger := zapLogger s;
     outputType := outputType s; version := version s;
     severityLevel := severityLevel s; callerEncoder := callerEncoder s;
     consoleFields := consoleFields s; omitKeys := omitKeys s;
     isStdOut := isStdOut s; separator := separator s; pid := pid s;
     fileName := fileName s; maxSize := maxSize s;
     maxBackups := maxBackups s; maxAge := v; localTime := localTime s;
     compress := compress s |}.

Definition set_localTime (v : bool) (s : State) : State :=
  {| once := once s; pretty := pretty s; zapLogger := zapLogger s;
     outputType := outputType s; version := version s;
     severityLevel := severityLevel s; callerEncoder := callerEncoder s;
     consoleFields := consoleFields s; omitKeys := omitKeys s;
     isStdOut := isStdOut s; separator := separator s; pid := pid s;
     fileName := fileName s; maxSize := maxSize s;
     maxBackups := maxBackups s; maxAge := maxAge s; localTime := v;
     compress := compress s |}.

Definition set_compress (v : bool) (s : State) : State :=
  {| once := once s; pretty := pretty s; zapLogger := zapLogger s;
     outputType := outputType s; version := version s;
     severityLevel := severityLevel s; callerEncoder := callerEncoder s;
     consoleFields := consoleFields s; omitKeys := omitKeys s;
     isStdOut := isStdOut s; separator := separator s; pid := pid s;
     fileName := fileName s; maxSize := maxSize s;
     maxBackups := maxBackups s; maxAge := maxAge s;
     localTime := localTime s; compress := v |}.

(** ** The [Logger] struct ([logger.go]) *)

Module Logger.

Record t : Type := {
  pretty : option PrettyLogger;
  zapLogger : zap.Logger;
  fields : list zap.Field
}.

End Logger.

(** ** Effects *)

Inductive Signal : Type := SIGINT | SIGTERM | SIGHUP.

(** [func (s Signal) String() string] of package [syscall]. *)
Definition Signal_String (s : Signal) : string :=
  match s with
  | SIGINT => "interrupt"
  | SIGTERM => "terminated"
  | SIGHUP => "hangup"
  end.

Definition Signal_eqb (a b : Signal) : bool :=
  String.eqb (Signal_String a) (Signal_String b).

(** What the package does to the outside, in program order. [StdLog] is a
    line on the standard library logger ([log.Print], [log.Println] and the
    diagnostic of [log.Fatal]); the [Pretty] events are calls of the console
    renderer; [ZapLog z lvl m fs] is the call of the engine method of level
    [lvl] on the handle [z]; [ZapSync] is the engine's flush. *)
Inductive Event : Type :=
  | StdLog (line : string)
  | PrettyLog (p : PrettyLogger) (message : string) (level : Level)
      (fields : list zap.Field)
  | PrettyLogWithError (p : PrettyLogger) (message : string) (level : Level)
      (err : string) (fields : list zap.Field)
  | PrettyPrintTraces (p : PrettyLogger)
  | ZapLog (z : zap.Logger) (level : Level) (message : string)
      (fields : list zap.Field)
  | ZapSync (z : zap.Logger)
  | SignalNotify (sigs : list Signal).

(** A fallible call of the operating system: a value or an error text. *)
Inductive result (A : Type) : Type :=
  | ok (a : A)
  | err (msg : string).
Arguments ok {A} a.
Arguments err {A} msg.

(** The operating system as the package sees it: [os.Hostname()],
    [os.Getpid()], the output of [git rev-parse --short HEAD], and the error
    (if any) of flushing the engine's sinks. *)
Record Env : Type := {
  os_Hostname : result string;
  os_Getpid : Z;
  git_rev_parse : result string;
  sync_error : option string
}.

Record World : Type := {
  vars : State;
  heap : gmap nat Logger.t;
  os : Env;
  waiting : list Signal;
  trace : list Event
}.

Definition with_vars (s : State) (w : World) : World :=
  {| vars := s; heap := heap w; os := os w; waiting := waiting w;
     trace := trace w |}.

Definition with_heap (h : gmap nat Logger.t) (w : World) : World :=
  {| vars := vars w; heap := h; os := os w; waiting := waiting w;
     trace := trace w |}.

Definition with_waiting (sigs : list Signal) (w : World) : World :=
  {| vars := vars w; heap := heap w; os := os w; waiting := sigs;
     trace := trace w |}.

Definition with_trace (t : list Event) (w : World) : World :=
  {| vars := vars w; heap := heap w; os := os w; waiting := waiting w;
     trace := t |}.

(** How a call ends: it returns, the process exits with a code ([os.Exit],
    [log.Fatal]), the goroutine panics, or the process is killed by a signal
    nobody subscribed to. *)
Inductive Outcome (A : Type) : Type :=
  | Done (a : A)
  | Exited (code : Z)
  | Panicked (why : string)
  | Killed (s : Signal).
Arguments Done {A} a.
Arguments Exited {A} code.
Arguments Panicked {A} why.
Arguments Killed {A} s.

Definition Go (A : Type) : Type := World -> Outcome A * World.

Definition ret {A : Type} (a : A) : Go A := fun w => (Done a, w).

Definition bind {A B : Type} (m : Go A) (k : A -> Go B) : Go B :=
  fun w =>
    match m w with
    | (Done a, w') => k a w'
    | (Exited c, w') => (Exited c, w')
    | (Panicked why, w') => (Panicked why, w')
    | (Killed s, w') => (Killed s, w')
    end.

Notation "x <- m ;; k" := (bind m (fun x => k))
  (at level 100, m at next level, right associativity).
Notation "m ;; k" := (bind m (fun _ => k))
  (at level 100, right associativity).

Definition get {A : Type} (f : State -> A) : Go A := fun w => (Done (f (vars w)), w).
Definition assign (f : State -> State) : Go unit :=
  fun w => (Done tt, with_vars (f (vars w)) w).
Definition env {A : Type} (f : Env -> A) : Go A := fun w => (Done (f (os w)), w).
Definition emit (e : Event) : Go unit :=
  fun w => (Done tt, with_trace (trace w ++ [e]) w).
Definition os_Exit {A : Type} (code : Z) : Go A := fun w => (Exited code, w).
Definition panic {A : Type} (why : string) : Go A := fun w => (Panicked why, w).

Definition nil_dereference : string :=
  "runtime error: invalid memory address or nil pointer dereference".

(** [defer]: the deferred assignment runs when the body returns and when it
    panics (not when the process exits). *)
Definition defer {A : Type} (f : State -> State) (body : Go A) : Go A :=
  fun w =>
    match body w with
    | (Done a, w') => (Done a, with_vars (f (vars w')) w')
    | (Panicked why, w') => (Panicked why, with_vars (f (vars w')) w')
    | r => r
    end.

(** [log.Print], [log.Println]: a line on the standard logger. *)
Definition log_Print (line : string) : Go unit := emit (StdLog line).

(** [log.Fatal], [log.Fatalf]: the diagnostic, then [os.Exit(1)]. *)
Definition log_Fatal {A : Type} (line : string) : Go A :=
  emit (StdLog line);; os_Exit 1.

(** The engine methods [Debug], [Info], [Warn], [Error] and [Fatal] of a
    [*zap.Logger]: each logs at its own level; [Fatal] then calls
    [os.Exit(1)]. *)
Definition zap_Debug (z : zap.Logger) (message : string) (fields : list zap.Field) : Go unit :=
  emit (ZapLog z zapcore.DebugLevel message fields).
Definition zap_Info (z : zap.Logger) (message : string) (fields : list zap.Field) : Go unit :=
  emit (ZapLog z zapcore.InfoLevel message fields).
Definition zap_Warn (z : zap.Logger) (message : string) (fields : list zap.Field) : Go unit :=
  emit (ZapLog z zapcore.WarnLevel message fields).
Definition zap_Error (z : zap.Logger) (message : string) (fields : list zap.Field) : Go unit :=
  emit (ZapLog z zapcore.ErrorLevel message fields).
Definition zap_Fatal (z : zap.Logger) (message : string) (fields : list zap.Field) : Go unit :=
  emit (ZapLog z zapcore.FatalLevel message fields);; os_Exit 1.

(** [Sync] of a [*zap.Logger]: flushes the sinks, and reports the flush error. *)
Definition zap_Sync (z : zap.Logger) : Go (option string) :=
  emit (ZapSync z);; env sync_error.

(** Modelled from the spec: the console renderer's [log], [logWithError] and
    [printTraces] ("render(message, level, fields, optionalError)"). The
    package calls them on a nil renderer in every mode but Pretty, where
    they render nothing. *)
Definition pretty_log (p : option PrettyLogger) (message : string) (level : Level)
    (fields : list zap.Field) : Go unit :=
  match p with
  | Some r => emit (PrettyLog r message level fields)
  | None => ret tt
  end.

Definition pretty_logWithError (p : option PrettyLogger) (message : string)
    (level : Level) (e : string) (fields : list zap.Field) : Go unit :=
  match p with
  | Some r => emit (PrettyLogWithError r message level e fields)
  | None => ret tt
  end.

Definition pretty_printTraces (p : option PrettyLogger) : Go unit :=
  match p with
  | Some r => emit (PrettyPrintTraces r)
  | None => ret tt
  end.

(** What reaches the sinks: the engine writes an entry to every sink of the
    handle when the entry's level is enabled by the core, and nothing
    otherwise. *)
Definition written (e : Event) : list (zapcore.WriteSyncer * string) :=
  match e with
  | ZapLog z lvl message _ =>
      if zapcore.Enabled (zap.level z) lvl
      then map (fun w => (w, message)) (zap.sinks z)
      else []
  | _ => []
  end.

Definition records (t : list Event) : list (zapcore.WriteSyncer * string) :=
  concat (map written t).

(** ** Building the engine ([zl.go]) *)

(** Assignment to one key of an encoder configuration. *)
Definition set_MessageKey (v : string) (e : zapcore.EncoderConfig) : zapcore.EncoderConfig :=
  {| zapcore.MessageKey := v; zapcore.LevelKey := zapcore.LevelKey e;
     zapcore.TimeKey := zapcore.TimeKey e;
     zapcore.NameKey := zapcore.NameKey e;
     zapcore.CallerKey := zapcore.CallerKey e;
     zapcore.FunctionKey := zapcore.FunctionKey e;
     zapcore.StacktraceKey := zapcore.StacktraceKey e;
     zapcore.EncodeLevel := zapcore.EncodeLevel e;
     zapcore.EncodeTime := zapcore.EncodeTime e;
     zapcore.EncodeDuration := zapcore.EncodeDuration e;
     zapcore.EncodeCaller := zapcore.EncodeCaller e |}.

Definition set_LevelKey (v : string) (e : zapcore.EncoderConfig) : zapcore.EncoderConfig :=
  {| zapcore.MessageKey := zapcore.MessageKey e; zapcore.LevelKey := v;
     zapcore.TimeKey := zapcore.TimeKey e;
     zapcore.NameKey := zapcore.NameKey e;
     zapcore.CallerKey := zapcore.CallerKey e;
     zapcore.FunctionKey := zapcore.FunctionKey e;
     zapcore.StacktraceKey := zapcore.StacktraceKey e;
     zapcore.EncodeLevel := zapcore.EncodeLevel e;
     zapcore.EncodeTime := zapcore.EncodeTime e;
     zapcore.EncodeDuration := zapcore.EncodeDuration e;
     zapcore.EncodeCaller := zapcore.EncodeCaller e |}.

Definition set_TimeKey (v : string) (e : zapcore.EncoderConfig) : zapcore.EncoderConfig :=
  {| zapcore.MessageKey := zapcore.MessageKey e;
     zapcore.LevelKey := zapcore.LevelKey e; zapcore.TimeKey := v;
     zapcore.NameKey := zapcore.NameKey e;
     zapcore.CallerKey := zapcore.CallerKey e;
     zapcore.FunctionKey := zapcore.FunctionKey e;
     zapcore.StacktraceKey := zapcore.StacktraceKey e;
     zapcore.EncodeLevel := zapcore.EncodeLevel e;
     zapcore.EncodeTime := zapcore.EncodeTime e;
     zapcore.EncodeDuration := zapcore.EncodeDuration e;
     zapcore.EncodeCaller := zapcore.EncodeCaller e |}.

Definition set_NameKey (v : string) (e : zapcore.EncoderConfig) : zapcore.EncoderConfig :=
  {| zapcore.MessageKey := zapcore.MessageKey e;
     zapcore.LevelKey := zapcore.LevelKey e;
     zapcore.TimeKey := zapcore.TimeKey e; zapcore.NameKey := v;
     zapcore.CallerKey := zapcore.CallerKey e;
     zapcore.FunctionKey := zapcore.FunctionKey e;
     zapcore.StacktraceKey := zapcore.StacktraceKey e;
     zapcore.EncodeLevel := zapcore.EncodeLevel e;
     zapcore.EncodeTime := zapcore.EncodeTime e;
     zapcore.EncodeDuration := zapcore.EncodeDuration e;
     zapcore.EncodeCaller := zapcore.EncodeCaller e |}.

Definition set_CallerKey (v : string) (e : zapcore.EncoderConfig) : zapcore.EncoderConfig :=
  {| zapcore.MessageKey := zapcore.MessageKey e;
     zapcore.LevelKey := zapcore.LevelKey e;
     zapcore.TimeKey := zapcore.TimeKey e;
     zapcore.NameKey := zapcore.NameKey e; zapcore.CallerKey := v;
     zapcore.FunctionKey := zapcore.FunctionKey e;
     zapcore.StacktraceKey := zapcore.StacktraceKey e;
     zapcore.EncodeLevel := zapcore.EncodeLevel e;
     zapcore.EncodeTime := zapcore.EncodeTime e;
     zapcore.EncodeDuration := zapcore.EncodeDuration e;
     zapcore.EncodeCaller := zapcore.EncodeCaller e |}.

Definition set_FunctionKey (v : string) (e : zapcore.EncoderConfig) : zapcore.EncoderConfig :=
  {| zapcore.MessageKey := zapcore.MessageKey e;
     zapcore.LevelKey := zapcore.LevelKey e;
     zapcore.TimeKey := zapcore.TimeKey e;
     zapcore.NameKey := zapcore.NameKey e;
     zapcore.CallerKey := zapcore.CallerKey e; zapcore.FunctionKey := v;
     zapcore.StacktraceKey := zapcore.StacktraceKey e;
     zapcore.EncodeLevel := zapcore.EncodeLevel e;
     zapcore.EncodeTime := zapcore.EncodeTime e;
     zapcore.EncodeDuration := zapcore.EncodeDuration e;
     zapcore.EncodeCaller := zapcore.EncodeCaller e |}.

Definition set_StacktraceKey (v : string) (e : zapcore.EncoderConfig) : zapcore.EncoderConfig :=
  {| zapcore.MessageKey := zapcore.MessageKey e;
     zapcore.LevelKey := zapcore.LevelKey e;
     zapcore.TimeKey := zapcore.TimeKey e;
     zapcore.NameKey := zapcore.NameKey e;
     zapcore.CallerKey := zapcore.CallerKey e;
     zapcore.FunctionKey := zapcore.FunctionKey e; zapcore.StacktraceKey := v;
     zapcore.EncodeLevel := zapcore.EncodeLevel e;
     zapcore.EncodeTime := zapcore.EncodeTime e;
     zapcore.EncodeDuration := zapcore.EncodeDuration e;
     zapcore.EncodeCaller := zapcore.EncodeCaller e |}.
(** [strings.TrimRight(s, "\n")]: drops the line feeds at the end. *)
Fixpoint TrimRight_newline (s : string) : string :=
  match s with
  | EmptyString => EmptyString
  | String c r =>
      let r' := TrimRight_newline r in
      if Ascii.eqb c "010"%char && String.eqb r' EmptyString then EmptyString else String c r'
  end.

(** [strings.ToUpper] on ASCII letters. *)
Definition upper (c : ascii) : ascii :=
  let n := nat_of_ascii c in
  if ((97 <=? n) && (n <=? 122))%nat then ascii_of_nat (n - 32) else c.

Fixpoint ToUpper (s : string) : string :=
  match s with
  | EmptyString => EmptyString
  | String c r => String (upper c) (ToUpper r)
  end.

(** The verb [%d]. *)
Definition itoa (n : Z) : string := NilZero.string_of_int (Z.to_int n).

(** The builtin [append(s, xs...)]. *)
Definition append {A : Type} (s xs : list A) : list A := (s ++ xs)%list.

(** [funk.Contains(omitKeys, k)] *)
Definition Contains (ks : list Key) (k : Key) : bool := existsb (String.eqb k) ks.

(** One turn of the loop of [setOmitKeys]: the [switch] on [omitKeys[i]]. *)
Definition setOmitKey (k : Key) (e : zapcore.EncoderConfig) : zapcore.EncoderConfig :=
  if String.eqb k MessageKey then set_MessageKey zapcore.OmitKey e
  else if String.eqb k LevelKey then set_LevelKey zapcore.OmitKey e
  else if String.eqb k TimeKey then set_TimeKey zapcore.OmitKey e
  else if String.eqb k LoggerKey then set_NameKey zapcore.OmitKey e
  else if String.eqb k CallerKey then set_CallerKey zapcore.OmitKey e
  else if String.eqb k FunctionKey then set_FunctionKey zapcore.OmitKey e
  else if String.eqb k StacktraceKey then set_StacktraceKey zapcore.OmitKey e
  else e.

Definition setOmitKeys (s : State) (e : zapcore.EncoderConfig) : zapcore.EncoderConfig :=
  fold_left (fun e k => setOmitKey k e) (omitKeys s) e.

Definition GetVersion : Go string :=
  v <- get version;;
  if negb (String.eqb v EmptyString) then ret v
  else
    out <- env git_rev_parse;;
    match out with
    | ok o => ret (TrimRight_newline o)
    | err _ => ret "undefined"
    end.

(** [getHost] returns a [*string]: [None] is the [nil] of the error branch. *)
Definition getHost : Go (option string) :=
  r <- env os_Hostname;;
  match r with
  | err e => log_Print e;; ret None
  | ok h => ret (Some h)
  end.

(** [*p] on a pointer that may be [nil]. *)
Definition deref {A : Type} (p : option A) : Go A :=
  match p with
  | Some a => ret a
  | None => panic nil_dereference
  end.

Definition getAdditionalFields : Go (list zap.Field) :=
  omit <- get omitKeys;;
  fields <- (if negb (Contains omit VersionKey)
             then v <- GetVersion;; ret (append [] [zap.String VersionKey v])
             else ret []);;
  fields <- (if negb (Contains omit HostnameKey)
             then p <- getHost;; h <- deref p;;
                  ret (append fields [zap.String HostnameKey h])
             else ret fields);;
  fields <- (if negb (Contains omit PIDKey)
             then n <- env os_Getpid;; assign (set_pid n);;
                  n <- get pid;; ret (append fields [zap.Int PIDKey n])
             else ret fields);;
  ret fields.

Definition getCallerEncoder (s : State) : zapcore.CallerEncoder :=
  match callerEncoder s with
  | Some e => e
  | None => zapcore.ShortCallerEncoder
  end.

Definition getConsoleOutput (s : State) : zapcore.WriteSyncer :=
  if isStdOut s then zapcore.Stdout else zapcore.Stderr.

(** Modelled from the spec: [newRotator], the rotating-file sink factory
    "build(fileName, maxSize, maxAge, maxBackups, localTime, compress)". *)
Definition newRotator (s : State) : zapcore.WriteSyncer :=
  zapcore.RotatingFile
    {| zapcore.Filename := fileName s; zapcore.MaxSize := maxSize s;
       zapcore.MaxBackups := maxBackups s; zapcore.MaxAge := maxAge s;
       zapcore.LocalTime := localTime s; zapcore.Compress := compress s |}.

Definition getSyncers (s : State) : list zapcore.WriteSyncer :=
  let syncers := [] in
  match outputType s with
  | PrettyOutput | FileOutput => append syncers [newRotator s]
  | ConsoleAndFileOutput => append syncers [getConsoleOutput s; newRotator s]
  | ConsoleOutput => append syncers [getConsoleOutput s]
  end.

(** The encoder configuration literal of [newZapLogger]. *)
Definition encoderConfig (s : State) : zapcore.EncoderConfig :=
  {| zapcore.MessageKey := MessageKey;
     zapcore.LevelKey := LevelKey;
     zapcore.TimeKey := TimeKey;
     zapcore.NameKey := LoggerKey;
     zapcore.CallerKey := CallerKey;
     zapcore.FunctionKey := FunctionKey;
     zapcore.StacktraceKey := StacktraceKey;
     zapcore.EncodeLevel := zapcore.encodeLevel;
     zapcore.EncodeTime := zapcore.RFC3339NanoTimeEncoder;
     zapcore.EncodeDuration := zapcore.StringDurationEncoder;
     zapcore.EncodeCaller := getCallerEncoder s |}.

Definition newZapLogger : Go zap.Logger :=
  s <- get id;;
  let enc := setOmitKeys s (encoderConfig s) in
  let core := zap.New enc (getSyncers s) (severityLevel s) in
  fs <- getAdditionalFields;;
  ret (zap.With fs core).

(** ** The free-function API ([logger.go]) *)

Definition consoleFieldDefault : string := "console".

(** Modelled from the spec: the field constructor [Console], declared outside
    these files; the record of the README shows it as a string field under
    the key "console". *)
Definition Console (val : string) : zap.Field := zap.String consoleFieldDefault val.

(** A method call through a [*zap.Logger] that may be [nil]. *)
Definition method {A : Type} (z : option zap.Logger) (m : zap.Logger -> Go A) : Go A :=
  h <- deref z;; m h.

Definition checkInit : Go unit :=
  z <- get zapLogger;;
  match z with
  | None => log_Fatal "The logger is not initialized. Init() must be called."
  | Some _ => ret tt
  end.

Definition logger (message : string) (level : Level) (fields : list zap.Field)
    : Go (option zap.Logger) :=
  checkInit;;
  p <- get pretty;;
  pretty_log p message level fields;;
  get zapLogger.

Definition loggerErr (message : string) (level : Level) (e : string)
    (fields : list zap.Field) : Go (option zap.Logger) :=
  checkInit;;
  p <- get pretty;;
  pretty_logWithError p message level e fields;;
  get zapLogger.

Definition Debug (message : string) (fields : list zap.Field) : Go unit :=
  z <- logger message DebugLevel fields;;
  method z (fun h => zap_Debug h message fields).

Definition Info (message : string) (fields : list zap.Field) : Go unit :=
  z <- logger message InfoLevel fields;;
  method z (fun h => zap_Info h message fields).

Definition Warn (message : string) (fields : list zap.Field) : Go unit :=
  z <- logger message WarnLevel fields;;
  method z (fun h => zap_Warn h message fields).

Definition Error (message : string) (fields : list zap.Field) : Go unit :=
  z <- logger message ErrorLevel fields;;
  method z (fun h => zap_Error h message fields).

Definition Fatal (message : string) (fields : list zap.Field) : Go unit :=
  z <- logger message FatalLevel fields;;
  method z (fun h => zap_Fatal h message fields).

(** ** Lifecycle ([zl.go]) *)

(** [once.Do(f)]: the body runs when the flag is clear, and the flag is set
    by a deferred store. *)
Definition once_Do (f : Go unit) : Go unit :=
  done <- get once;;
  if done then ret tt else defer (set_once true) f.

(** The text of the initialization record: the [fmt.Sprintf] of [Init], with
    [p] the process id part. *)
Definition init_text (s : State) (p : string) : string :=
  String.concat EmptyString
    ["Severity: "; zapcore.CapitalString (severityLevel s);
     ", Output: "; Output_String (outputType s);
     ", FileName: "; fileName s; p].

Definition Init : Go unit :=
  once_Do (
    o <- get outputType;;
    (if Output_eqb o PrettyOutput
     then assign (set_pretty (Some newPrettyLogger))
     else ret tt);;
    z <- newZapLogger;;
    assign (set_zapLogger (Some z));;
    n <- get pid;;
    let p := if negb (n =? 0) then String.append ", PID: " (itoa n) else EmptyString in
    s <- get id;;
    Debug "INIT_LOGGER" [Console (init_text s p)]).

Definition Sync : Go unit :=
  o <- get outputType;;
  if negb (Output_eqb o PrettyOutput) && negb (Output_eqb o FileOutput)
  then ret tt
  else
    z <- get zapLogger;;
    e <- method z zap_Sync;;
    match e with
    | Some msg => log_Print msg
    | None => ret tt
    end;;
    p <- get pretty;;
    pretty_printTraces p.

(** The body of the goroutine of [SyncWhenStop] once the signal [s] has
    arrived on its channel. *)
Definition onSignal (s : Signal) : Go unit :=
  let sigCode :=
    if String.eqb (Signal_String s) "interrupt" then 2
    else if String.eqb (Signal_String s) "terminated" then 15
    else 0 in
  Debug (String.append "GOT_SIGNAL_" (ToUpper (Signal_String s))) [];;
  Sync;;
  os_Exit (128 + sigCode).

(** [SyncWhenStop]: unless it returns early, it starts the goroutine, which
    subscribes to the two signals and then waits. *)
Definition SyncWhenStop : Go unit :=
  o <- get outputType;;
  if negb (Output_eqb o PrettyOutput) && negb (Output_eqb o FileOutput)
  then ret tt
  else
    emit (SignalNotify [SIGINT; SIGTERM]);;
    fun w => (Done tt, with_waiting [SIGINT; SIGTERM] w).

(** Delivery of a signal to the process: the waiting goroutine runs when it
    subscribed to the signal; otherwise the signal keeps its default action
    and kills the process. *)
Definition deliver (s : Signal) : Go unit :=
  fun w =>
    if existsb (Signal_eqb s) (waiting w)
    then onSignal s (with_waiting [] w)
    else (Killed s, w).

Definition Cleanup : Go unit :=
  assign (set_once false);;
  assign (set_pretty None);;
  assign (set_zapLogger None);;
  assign (set_outputType PrettyOutput);;
  assign (set_version EmptyString);;
  assign (set_severityLevel zapcore.InfoLevel);;
  assign (set_callerEncoder None);;
  assign (set_consoleFields [consoleFieldDefault]);;
  assign (set_omitKeys []);;
  assign (set_isStdOut false);;
  assign (set_separator " : ");;
  assign (set_fileName EmptyString);;
  assign (set_maxSize 0);;
  assign (set_maxBackups 0);;
  assign (set_maxAge 0);;
  assign (set_localTime false);;
  assign (set_compress false).

(** The values the variables are declared with. *)
Definition initial : State :=
  {| once := false; pretty := None; zapLogger := None;
     outputType := PrettyOutput; version := EmptyString;
     severityLevel := zapcore.InfoLevel; callerEncoder := None;
     consoleFields := [consoleFieldDefault]; omitKeys := [];
     isStdOut := false; separator := " : "; pid := 0;
     fileName := EmptyString; maxSize := 0; maxBackups := 0; maxAge := 0;
     localTime := false; compress := false |}.

(** ** Setters ([options.go]) *)

Definition SetOutput (option : Output) : Go unit := assign (set_outputType option).




(** [options.go] still calls the variables of [zl.go] by their former names:
    [logLevel] is [severityLevel] and [ignoreKeys] is [omitKeys]. *)
Definition SetLevel (option : Level) : Go unit := assign (set_severityLevel option).


Definition SetIgnoreKeys (key : list Key) : Go unit := assign (set_omitKeys key).
Definition SetVersion (revisionOrTag : string) : Go unit := assign (set_version revisionOrTag).
Definition SetStdout : Go unit := assign (set_isStdOut true).
Definition SetFileName (val : string) : Go unit := assign (set_fileName val).

Section LevelParser.

(** [zapcore.Level.UnmarshalText], the engine's parser of level names: the
    level, or the error for a text it does not recognise. *)
Variable UnmarshalText : string -> result zapcore.Level.


End LevelParser.

(** ** Methods of [*Logger] ([logger.go])

    A [*Logger] is an address in the heap of the world; a method reads its
    receiver through the address and writes it back in place. *)

Definition load (l : nat) : Go Logger.t :=
  fun w =>
    match heap w !! l with
    | Some v => (Done v, w)
    | None => (Panicked nil_dereference, w)
    end.

Definition store (l : nat) (v : Logger.t) : Go unit :=
  fun w => (Done tt, with_heap (<[l := v]> (heap w)) w).

(** [l.pretty.Logger.SetPrefix(prefix)] *)
Definition SetPrefix (prefix : string) (p : PrettyLogger) : PrettyLogger :=
  {| Prefix := prefix |}.

Definition Logger_Named (l : nat) (loggerName : string) : Go nat :=
  v <- load l;;
  match Logger.pretty v with
  | Some p =>
      store l {| Logger.pretty := Some (SetPrefix (String.append loggerName " | ") p);
                 Logger.zapLogger := Logger.zapLogger v;
                 Logger.fields := Logger.fields v |}
  | None => ret tt
  end;;
  v <- load l;;
  store l {| Logger.pretty := Logger.pretty v;
             Logger.zapLogger := zap.Named loggerName (Logger.zapLogger v);
             Logger.fields := Logger.fields v |};;
  ret l.

Definition Logger_logger (l : nat) (message : string) (level : Level)
    (fields : list zap.Field) : Go zap.Logger :=
  v <- load l;;
  pretty_log (Logger.pretty v) message level fields;;
  v <- load l;;
  ret (Logger.zapLogger v).

Definition Logger_Debug (l : nat) (message : string) (fields : list zap.Field) : Go unit :=
  v <- load l;;
  let fields := append fields (Logger.fields v) in
  z <- Logger_logger l message DebugLevel fields;;
  zap_Debug z message fields.

Definition Logger_Info (l : nat) (message : string) (fields : list zap.Field) : Go unit :=
  v <- load l;;
  let fields := append fields (Logger.fields v) in
  z <- Logger_logger l message InfoLevel fields;;
  zap_Info z message fields.

Definition Logger_Warn (l : nat) (message : string) (fields : list zap.Field) : Go unit :=
  v <- load l;;
  let fields := append fields (Logger.fields v) in
  z <- Logger_logger l message WarnLevel fields;;
  zap_Warn z message fields.

Definition Logger_Error (l : nat) (message : string) (fields : list zap.Field) : Go unit :=
  v <- load l;;
  let fields := append fields (Logger.fields v) in
  z <- Logger_logger l message ErrorLevel fields;;
  zap_Warn z message fields.

Definition Logger_Fatal (l : nat) (message : string) (fields : list zap.Field) : Go unit :=
  v <- load l;;
  let fields := append fields (Logger.fields v) in
  z <- Logger_logger l message FatalLevel fields;;
  zap_Warn z message fields.

(** The emission operation of each severity, as the API names it. *)
Definition emitAt (L : Level) : string -> list zap.Field -> Go unit :=
  match L with
  | zapcore.DebugLevel => Debug
  | zapcore.InfoLevel => Info
  | zapcore.WarnLevel => Warn
  | zapcore.ErrorLevel => Error
  | _ => Fatal
  end.

Definition Logger_emitAt (L : Level) : nat -> string -> list zap.Field -> Go unit :=
  match L with
  | zapcore.DebugLevel => Logger_Debug
  | zapcore.InfoLevel => Logger_Info
  | zapcore.WarnLevel => Logger_Warn
  | zapcore.ErrorLevel => Logger_Error
  | _ => Logger_Fatal
  end.

(** The level of the engine calls in a trace. *)
Definition engine_levels (t : list Event) : list Level :=
  concat (map (fun e => match e with ZapLog _ lvl _ _ => [lvl] | _ => [] end) t).

(** The engine calls of a trace. *)
Definition engine_call (e : Event) : bool :=
  match e with ZapLog _ _ _ _ => true | _ => false end.

Definition engine_calls (t : list Event) : list Event := List.filter engine_call t.

(** The number of flushes of the engine in a trace. *)
Definition flushes (t : list Event) : nat :=
  length (List.filter (fun e => match e with ZapSync _ => true | _ => false end) t).

(** ** The sink table of the specification

    The table of section 4.2, written from its words: the sinks of each
    output mode, in order, for a given console sink and rotating-file sink. *)
Definition table_4_2 (o : Output) (console file : zapcore.WriteSyncer)
    : list zapcore.WriteSyncer :=
  match o with
  | PrettyOutput => [file]
  | ConsoleAndFileOutput => [console; file]
  | ConsoleOutput => [console]
  | FileOutput => [file]
  end.

(** The console sink of the specification: standard output when it was
    selected, standard error otherwise. *)
Definition console_sink (stdout_selected : bool) : zapcore.WriteSyncer :=
  if stdout_selected then zapcore.Stdout else zapcore.Stderr.

(** ** Sample worlds

    A host called "box" with process id 4242 and a checked-out revision; the
    same host when its name cannot be resolved; a logger with one persistent
    field; and the world that holds given variables, that logger at address
    1 and an empty trace. *)
Definition line_feed : string := String "010"%char EmptyString.

Definition box : Env :=
  {| os_Hostname := ok "box"; os_Getpid := 4242;
     git_rev_parse := ok (String.append "e86b9a7" line_feed);
     sync_error := None |}.

Definition lost : Env :=
  {| os_Hostname := err "hostname: unknown"; os_Getpid := 4242;
     git_rev_parse := ok (String.append "e86b9a7" line_feed);
     sync_error := None |}.

Definition file_handle : zap.Logger :=
  zap.New (encoderConfig initial) (getSyncers initial) zapcore.DebugLevel.

Definition alice : Logger.t :=
  {| Logger.pretty := Some newPrettyLogger;
     Logger.zapLogger := file_handle;
     Logger.fields := [zap.String "user_name" "Alice"] |}.

Definition world (s : State) (e : Env) : World :=
  {| vars := s; heap := {[ 1%nat := alice ]}; os := e; waiting := [];
     trace := [] |}.

(** ** Derived descriptions

    What the functions above compute, case by case; the properties below
    are stated with them. *)

(** The world after [Init] has run from the declared values changed by
    [conf], on the host [e]. *)
Definition after_Init (conf : State -> State) (e : Env) : World :=
  snd (Init (world (conf initial) e)).

(** A first run under the default configuration. *)
Definition first_run : World := after_Init id box.

(** The receiver after [Named]: the prefix of its console renderer (when it
    has one) and its engine handle are replaced, its fields are kept. *)
Definition named (loggerName : string) (v : Logger.t) : Logger.t :=
  {| Logger.pretty := SetPrefix (String.append loggerName " | ") <$> Logger.pretty v;
     Logger.zapLogger := zap.Named loggerName (Logger.zapLogger v);
     Logger.fields := Logger.fields v |}.

(** What [GetVersion] returns in a world. *)
Definition version_in (w : World) : string :=
  if negb (String.eqb (version (vars w)) EmptyString) then version (vars w)
  else match git_rev_parse (os w) with
       | ok o => TrimRight_newline o
       | err _ => "undefined"
       end.

(** The world after the process id branch of [getAdditionalFields]. *)
Definition pid_stored (w : World) : World :=
  if Contains (omitKeys (vars w)) PIDKey then w
  else with_vars (set_pid (os_Getpid (os w)) (vars w)) w.

Definition version_field (w : World) : list zap.Field :=
  if Contains (omitKeys (vars w)) VersionKey then []
  else [zap.String VersionKey (version_in w)].

Definition pid_field (w : World) : list zap.Field :=
  if Contains (omitKeys (vars w)) PIDKey then []
  else [zap.Int PIDKey (os_Getpid (os w))].

(** The handle that [newZapLogger] builds around given enrichment fields. *)
Definition handle (s : State) (fs : list zap.Field) : zap.Logger :=
  zap.With fs (zap.New (setOmitKeys s (encoderConfig s)) (getSyncers s) (severityLevel s)).

(** Construction succeeds when the hostname is omitted or can be resolved. *)
Definition hostname_available (w : World) : Prop :=
  Contains (omitKeys (vars w)) HostnameKey = true
  \/ exists h, os_Hostname (os w) = ok h.

(** The name under which the encoder configuration holds a Key. *)
Definition configured (k : Key) (e : zapcore.EncoderConfig) : string :=
  if String.eqb k MessageKey then zapcore.MessageKey e
  else if String.eqb k LevelKey then zapcore.LevelKey e
  else if String.eqb k TimeKey then zapcore.TimeKey e
  else if String.eqb k LoggerKey then zapcore.NameKey e
  else if String.eqb k CallerKey then zapcore.CallerKey e
  else if String.eqb k FunctionKey then zapcore.FunctionKey e
  else if String.eqb k StacktraceKey then zapcore.StacktraceKey e
  else k.

(** The field names that the logger itself contributes to a record: those
    the encoder writes for the entry, and those of the enrichment fields. *)
Definition own_keys (z : zap.Logger) (named stack : bool) : list string :=
  (zapcore.entry_keys (zap.enc z) named stack ++ map zap.Key (zap.context z))%list.

(** The enrichment fields of a world in which the hostname is available. *)
Definition enrichment (w : World) : list zap.Field :=
  (version_field w
   ++ (if Contains (omitKeys (vars w)) HostnameKey then []
       else match os_Hostname (os w) with
            | ok h => [zap.String HostnameKey h]
            | err _ => []
            end)
   ++ pid_field w)%list.

(** The variables once the guarded body of [Init] has run, before the flag
    of the [sync.Once] is set: the renderer in Pretty mode, the process id
    unless omitted, and the engine handle. *)
Definition Init_pretty (w : World) : option PrettyLogger :=
  if Output_eqb (outputType (vars w)) PrettyOutput then Some newPrettyLogger
  else pretty (vars w).

Definition Init_handle (w : World) : zap.Logger :=
  handle (set_pretty (Init_pretty w) (vars w)) (enrichment w).

Definition Init_vars (w : World) : State :=
  set_zapLogger (Some (Init_handle w))
    (vars (pid_stored (with_vars (set_pretty (Init_pretty w) (vars w)) w))).

(** The initialization record, as handed to the engine. *)
Definition Init_fields (w : World) : list zap.Field :=
  [Console
     (init_text (Init_vars w)
        (if negb (pid (Init_vars w) =? 0)
         then String.append ", PID: " (itoa (pid (Init_vars w)))
         else EmptyString))].

Definition Init_events (w : World) : list Event :=
  (match Init_pretty w with
   | Some p => [PrettyLog p "INIT_LOGGER" DebugLevel (Init_fields w)]
   | None => []
   end
   ++ [ZapLog (Init_handle w) DebugLevel "INIT_LOGGER" (Init_fields w)])%list.

(** The exit code of the goroutine for a signal. *)
Definition exit_code (s : Signal) : Z :=
  match s with
  | SIGINT => 130
  | SIGTERM => 143
  | SIGHUP => 128
  end.

(** The marker of a signal. *)
Definition marker (s : Signal) : string :=
  match s with
  | SIGINT => "GOT_SIGNAL_INTERRUPT"
  | SIGTERM => "GOT_SIGNAL_TERMINATED"
  | SIGHUP => "GOT_SIGNAL_HANGUP"
  end.


(** ** Level names ([zl.go]) *)

(** The map literal of [encodeLevel]. *)
Definition severityLevelStrings : list (zapcore.Level * string) :=
  [(zapcore.DebugLevel, "DEBUG");
   (zapcore.InfoLevel, "INFO");
   (zapcore.WarnLevel, "WARNING");
   (zapcore.ErrorLevel, "ERROR");
   (zapcore.FatalLevel, "CRITICAL")].

(** [encodeLevel]: the string it appends, [severityLevelStrings[l]]; a level
    that is no key of the map reads as the zero value. *)
Definition encodeLevel (l : zapcore.Level) : string :=
  match find (fun kv => zapcore.Level_eqb (fst kv) l) severityLevelStrings with
  | Some kv => snd kv
  | None => EmptyString
  end.

(** ** The repository caller encoder ([options.go]) *)

(** The rest of [s] after the prefix [old], when [s] starts with [old]. *)
Fixpoint strip_prefix (old s : string) : option string :=
  match old, s with
  | EmptyString, _ => Some s
  | String a old', String b s' =>
      if Ascii.eqb a b then strip_prefix old' s' else None
  | String _ _, EmptyString => None
  end.

(** [strings.Replace(s, old, new, 1)]: the first occurrence of [old] in [s]
    is replaced by [new]; without an occurrence [s] is returned. *)
Fixpoint Replace_first (s old new : string) : string :=
  match strip_prefix old s with
  | Some rest => String.append new rest
  | None =>
      match s with
      | EmptyString => EmptyString
      | String c r => String c (Replace_first r old new)
      end
  end.

(** [old] occurs in [s]. *)
Fixpoint occurs (old s : string) : bool :=
  match strip_prefix old s with
  | Some _ => true
  | None =>
      match s with
      | EmptyString => false
      | String _ r => occurs old r
      end
  end.

(** The closure that [buildRepositoryCallerEncoder] returns, applied to a
    caller's file and line: the string it appends. *)
Definition repositoryCaller (dir url File : string) (Line : Z) : string :=
  String.append (Replace_first File dir url) (String.append "#L" (itoa Line)).

Definition buildRepositoryCallerEncoder (dir url : string) : zapcore.CallerEncoder :=
  zapcore.RepositoryCallerEncoder dir url.

Section Format.

(** [fmt.Sprintf(urlFormat, revisionOrTag)], the formatting of one string
    argument by the standard library. *)
Variable Sprintf : string -> string -> string.

Definition SetRepositoryCallerEncoder (urlFormat revisionOrTag srcRootDir : string)
    : Go unit :=
  if String.eqb revisionOrTag EmptyString || String.eqb srcRootDir EmptyString
  then ret tt
  else
    let url := Sprintf urlFormat revisionOrTag in
    assign (set_callerEncoder (Some (buildRepositoryCallerEncoder srcRootDir url))).

End Format.

(** ** Error-carrying emission ([logger.go]) *)

Section Errors.

(** A Go [error] value, the field [zap.Error(err)] that the engine's
    library makes of it, and the text of the error as the console renderer
    is handed it. *)
Variable error : Type.
Variable zap_ErrorField : error -> zap.Field.
Variable error_text : error -> string.

Definition DebugErr (message : string) (e : error) (fields : list zap.Field) : Go unit :=
  z <- loggerErr message DebugLevel (error_text e) fields;;
  method z (fun h => zap_Debug h message (append fields [zap_ErrorField e])).

Definition InfoErr (message : string) (e : error) (fields : list zap.Field) : Go unit :=
  z <- loggerErr message InfoLevel (error_text e) fields;;
  method z (fun h => zap_Info h message (append fields [zap_ErrorField e])).

Definition WarnErr (message : string) (e : error) (fields : list zap.Field) : Go unit :=
  z <- loggerErr message WarnLevel (error_text e) fields;;
  method z (fun h => zap_Warn h message (append fields [zap_ErrorField e])).

Definition ErrorErr (message : string) (e : error) (fields : list zap.Field) : Go unit :=
  z <- loggerErr message ErrorLevel (error_text e) fields;;
  method z (fun h => zap_Error h message (append fields [zap_ErrorField e])).

Definition Err (message : string) (e : error) (fields : list zap.Field) : Go unit :=
  z <- loggerErr message ErrorLevel (error_text e) fields;;
  method z (fun h => zap_Error h message (append fields [zap_ErrorField e])).

Definition ErrRet (message : string) (e : error) (fields : list zap.Field) : Go error :=
  z <- loggerErr message ErrorLevel (error_text e) fields;;
  method z (fun h => zap_Error h message (append fields [zap_ErrorField e]));;
  ret e.

Definition FatalErr (message : string) (e : error) (fields : list zap.Field) : Go unit :=
  z <- loggerErr message FatalLevel (error_text e) fields;;
  method z (fun h => zap_Fatal h message (append fields [zap_ErrorField e])).

Definition Logger_loggerErr (l : nat) (message : string) (level : Level) (e : error)
    (fields : list zap.Field) : Go zap.Logger :=
  v <- load l;;
  pretty_logWithError (Logger.pretty v) message level (error_text e) fields;;
  v <- load l;;
  ret (Logger.zapLogger v).

Definition Logger_DebugErr (l : nat) (message : string) (e : error)
    (fields : list zap.Field) : Go unit :=
  v <- load l;;
  let fields := append (append fields [zap_ErrorField e]) (Logger.fields v) in
  z <- Logger_loggerErr l message DebugLevel e fields;;
  zap_Debug z message fields.

Definition Logger_InfoErr (l : nat) (message : string) (e : error)
    (fields : list zap.Field) : Go unit :=
  v <- load l;;
  let fields := append (append fields [zap_ErrorField e]) (Logger.fields v) in
  z <- Logger_loggerErr l message InfoLevel e fields;;
  zap_Info z message fields.

Definition Logger_WarnErr (l : nat) (message : string) (e : error)
    (fields : list zap.Field) : Go unit :=
  v <- load l;;
  let fields := append (append fields [zap_ErrorField e]) (Logger.fields v) in
  z <- Logger_loggerErr l message WarnLevel e fields;;
  zap_Warn z message fields.

Definition Logger_ErrorErr (l : nat) (message : string) (e : error)
    (fields : list zap.Field) : Go unit :=
  v <- load l;;
  let fields := append (append fields [zap_ErrorField e]) (Logger.fields v) in
  z <- Logger_loggerErr l message ErrorLevel e fields;;
  zap_Error z message fields.

Definition Logger_Err (l : nat) (message : string) (e : error)
    (fields : list zap.Field) : Go unit :=
  v <- load l;;
  let fields := append (append fields [zap_ErrorField e]) (Logger.fields v) in
  z <- Logger_loggerErr l message ErrorLevel e fields;;
  zap_Error z message fields.

Definition Logger_ErrRet (l : nat) (message : string) (e : error)
    (fields : list zap.Field) : Go error :=
  v <- load l;;
  let fields := append (append fields [zap_ErrorField e]) (Logger.fields v) in
  z <- Logger_loggerErr l message ErrorLevel e fields;;
  zap_Error z message fields;;
  ret e.

Definition Logger_FatalErr (l : nat) (message : string) (e : error)
    (fields : list zap.Field) : Go unit :=
  v <- load l;;
  let fields := append (append fields [zap_ErrorField e]) (Logger.fields v) in
  z <- Logger_loggerErr l message FatalLevel e fields;;
  zap_Fatal z message fields.

(** The error-carrying operation of each severity ([ErrorErr] and [Err] are
    the same function). *)
Definition emitErrAt (L : Level) : string -> error -> list zap.Field -> Go unit :=
  match L with
  | zapcore.DebugLevel => DebugErr
  | zapcore.InfoLevel => InfoErr
  | zapcore.WarnLevel => WarnErr
  | zapcore.ErrorLevel => ErrorErr
  | _ => FatalErr
  end.

Definition Logger_emitErrAt (L : Level) : nat -> string -> error -> list zap.Field -> Go unit :=
  match L with
  | zapcore.DebugLevel => Logger_DebugErr
  | zapcore.InfoLevel => Logger_InfoErr
  | zapcore.WarnLevel => Logger_WarnErr
  | zapcore.ErrorLevel => Logger_ErrorErr
  | _ => Logger_FatalErr
  end.

End Errors.

(** The names of the enrichment Keys that a configuration does not omit, in
    the order of [getAdditionalFields]. *)
Definition kept_enrichment (s : State) : list Key :=
  List.filter (fun k => negb (Contains (omitKeys s) k)) enrichmentKeys.

(** The text of an error in the sample runs. *)
Definition sample_error : string := "error message".

(** The same world on a host whose name resolves as [r]. *)
Definition with_hostname (r : result string) (w : World) : World :=
  {| vars := vars w; heap := heap w;
     os := {| os_Hostname := r; os_Getpid := os_Getpid (os w);
              git_rev_parse := git_rev_parse (os w);
              sync_error := sync_error (os w) |};
     waiting := waiting w; trace := trace w |}.

(** The same world when flushing the engine fails as [r]. *)
Definition with_sync_error (r : option string) (w : World) : World :=
  {| vars := vars w; heap := heap w;
     os := {| os_Hostname := os_Hostname (os w); os_Getpid := os_Getpid (os w);
              git_rev_parse := git_rev_parse (os w);
              sync_error := r |};
     waiting := waiting w; trace := trace w |}.

(** The last character of [s] is a line feed. *)
Fixpoint ends_with_line_feed (s : string) : bool :=
  match s with
  | EmptyString => false
  | String c EmptyString => Ascii.eqb c "010"%char
  | String _ r => ends_with_line_feed r
  end.

(** The diagnostic of [checkInit]. *)
Definition not_initialized : string :=
  "The logger is not initialized. Init() must be called.".

(** The lines printed on the standard logger in a trace. *)
Definition diagnostics (t : list Event) : list string :=
  concat (map (fun e => match e with StdLog line => [line] | _ => [] end) t).

(** ** The earlier [zl.go] kept in [options.go] *)

(** [getSyncers] as the earlier file has it: the console sink is always
    standard error. *)
Definition earlier_getSyncers (s : State) : list zapcore.WriteSyncer :=
  let syncers := [] in
  match outputType s with
  | PrettyOutput | FileOutput => append syncers [newRotator s]
  | ConsoleAndFileOutput => append syncers [zapcore.Stderr; newRotator s]
  | ConsoleOutput => append syncers [zapcore.Stderr]
  end.

(** * Properties *)

(** ** Running computations *)

(** Runs the guard of a computation on any world. *)
Ltac run :=
  repeat (cbn [bind get assign env emit ret fst snd vars heap os waiting trace
               with_vars with_heap with_trace with_waiting negb andb] in *;
          unfold method, deref, log_Print, log_Fatal, os_Exit, panic,
                 pretty_log, pretty_logWithError, pretty_printTraces in *).

Arguments Contains : simpl never.
Arguments newZapLogger : simpl never.
Arguments getAdditionalFields : simpl never.
Arguments String.eqb : simpl nomatch.

(** Case analysis on a world down to the variables it holds. *)
Ltac explode w :=
  let s := fresh "s" in
  let e := fresh "e" in
  destruct w as [s ? e ? ?]; destruct s; destruct e; cbn in *.

(** Runs a computation on a world whose variables are known. *)
Ltac tidy :=
  repeat (lazy beta iota zeta delta
            [bind ret get assign env emit os_Exit panic load store defer
             method deref log_Print log_Fatal once_Do
             pretty_log pretty_logWithError pretty_printTraces
             zap_Debug zap_Info zap_Warn zap_Error zap_Fatal zap_Sync
             with_trace with_vars with_heap with_waiting
             vars heap os waiting trace fst snd negb andb orb id
             os_Hostname os_Getpid git_rev_parse sync_error
             once pretty zapLogger outputType version severityLevel
             callerEncoder consoleFields omitKeys isStdOut separator pid
             fileName maxSize maxBackups maxAge localTime compress
             set_once set_pretty set_zapLogger set_outputType set_version
             set_severityLevel set_callerEncoder set_consoleFields
             set_omitKeys set_isStdOut set_separator set_pid set_fileName
             set_maxSize set_maxBackups set_maxAge set_localTime
             set_compress];
          cbn; rewrite <- ?app_assoc).

(** Runs a method body whose receiver is known to be [v]. *)
Ltac receiver Hv :=
  repeat (progress (tidy; rewrite ?Hv, ?lookup_insert_eq)).

Lemma records_app (t t' : list Event) : records (t ++ t') = (records t ++ records t')%list.
Proof. unfold records. now rewrite map_app, concat_app. Qed.

Lemma engine_levels_app (t t' : list Event) :
  engine_levels (t ++ t') = (engine_levels t ++ engine_levels t')%list.
Proof. unfold engine_levels. now rewrite map_app, concat_app. Qed.

Lemma flushes_app (t t' : list Event) : flushes (t ++ t') = (flushes t + flushes t')%nat.
Proof. unfold flushes. now rewrite List.filter_app, length_app. Qed.

(** ** Sinks *)

(** C2. For every output mode the sink list that [getSyncers] builds is the
    one of the table of section 4.2 (Pretty: the rotating file;
    ConsoleAndFile: console, then the rotating file; Console: the console;
    File: the rotating file), and the console sink is standard output when
    stdout was selected and standard error otherwise. *)
Theorem getSyncers_matches_table (s : State) :
  getSyncers s = table_4_2 (outputType s) (console_sink (isStdOut s)) (newRotator s)
  /\ getConsoleOutput s = console_sink (isStdOut s)
  /\ zapcore.is_console (getConsoleOutput s) = true
  /\ zapcore.is_file (newRotator s) = true.
Proof.
  unfold getSyncers, getConsoleOutput, console_sink, append.
  split; [destruct (outputType s); reflexivity|].
  split; [reflexivity|].
  split; [destruct (isStdOut s); reflexivity | reflexivity].
Qed.

(** ** Flushing *)

Lemma Sync_skips (w : World) :
  outputType (vars w) = ConsoleOutput \/ outputType (vars w) = ConsoleAndFileOutput ->
  Sync w = (Done tt, w).
Proof. intros [H|H]; unfold Sync; run; rewrite H; reflexivity. Qed.

Lemma Sync_runs (w : World) (z : zap.Logger) :
  zapLogger (vars w) = Some z ->
  outputType (vars w) = PrettyOutput \/ outputType (vars w) = FileOutput ->
  Sync w =
    (Done tt,
     with_trace
       (trace w ++ [ZapSync z]
        ++ match sync_error (os w) with Some msg => [StdLog msg] | None => [] end
        ++ match pretty (vars w) with Some p => [PrettyPrintTraces p] | None => [] end)
       w).
Proof.
  intros Hz Ho. explode w. subst.
  destruct Ho; subst; destruct sync_error0, pretty0; tidy; reflexivity.
Qed.

(** C6, as the code has it. Once the logger is initialized, [Sync] invokes
    the engine's sync exactly once when the output mode is Pretty or File,
    and is a no-op (nothing flushed, nothing changed) when the mode writes to
    a console sink, that is for Console and for ConsoleAndFile. *)
Theorem Sync_flushes_file_only_modes (w : World) (z : zap.Logger) :
  zapLogger (vars w) = Some z ->
  fst (Sync w) = Done tt
  /\ (outputType (vars w) = PrettyOutput \/ outputType (vars w) = FileOutput ->
      existsb zapcore.is_console (getSyncers (vars w)) = false
      /\ flushes (trace (snd (Sync w))) = S (flushes (trace w))
      /\ In (ZapSync z) (trace (snd (Sync w))))
  /\ (outputType (vars w) = ConsoleOutput \/ outputType (vars w) = ConsoleAndFileOutput ->
      existsb zapcore.is_console (getSyncers (vars w)) = true
      /\ Sync w = (Done tt, w)).
Proof.
  intros Hz. split; [|split].
  - destruct (outputType (vars w)) eqn:Ho.
    1,4: rewrite (Sync_runs w z); auto.
    1,2: rewrite Sync_skips; auto.
  - intros Ho. rewrite (Sync_runs w z Hz Ho). cbn [snd trace with_trace].
    split; [|split].
    + unfold getSyncers, append. destruct Ho as [-> | ->]; reflexivity.
    + rewrite !flushes_app.
      destruct (sync_error (os w)), (pretty (vars w)); cbn; lia.
    + apply in_or_app. right. now left.
  - intros Ho. split; [|now apply Sync_skips].
    unfold getSyncers, getConsoleOutput, append.
    destruct Ho as [-> | ->]; destruct (isStdOut (vars w)); reflexivity.
Qed.

Lemma Sync_flushes_file_only_modes_witness :
  let w := after_Init (set_severityLevel zapcore.DebugLevel) box in
  exists z, zapLogger (vars w) = Some z
    /\ fst (Sync w) = Done tt
    /\ flushes (trace (snd (Sync w))) = S (flushes (trace w)).
Proof.
  eexists. split; [reflexivity|].
  destruct (Sync_flushes_file_only_modes
              (after_Init (set_severityLevel zapcore.DebugLevel) box) _ eq_refl)
    as (Hd & Hf & _).
  split; [exact Hd|]. apply Hf. left. reflexivity.
Defined.

(** C6 as stated fails: ConsoleAndFile writes to the rotating file, and yet
    [Sync] in that mode returns without calling the engine's sync. *)
Lemma Sync_ConsoleAndFile_does_not_flush :
  let w := after_Init (set_outputType ConsoleAndFileOutput) box in
  existsb zapcore.is_file (getSyncers (vars w)) = true
  /\ (exists z, zapLogger (vars w) = Some z
                /\ existsb zapcore.is_file (zap.sinks z) = true)
  /\ Sync w = (Done tt, w)
  /\ flushes (trace (snd (Sync w))) = flushes (trace w).
Proof.
  split; [reflexivity|]. split; [eexists; split; reflexivity|].
  split; reflexivity.
Qed.

(** ** Teardown *)

(** [Cleanup] always returns, and assigns its declared value to every
    variable but [pid], which it does not mention. *)
Lemma Cleanup_resets (w : World) :
  Cleanup w = (Done tt, with_vars (set_pid (pid (vars w)) initial) w).
Proof. reflexivity. Qed.

(** C9 on the code: after [Cleanup] the variable [pid] still holds the
    process id that the previous initialization stored, so the variables are
    not back at their declared values; every other variable is. *)
Theorem Cleanup_leaves_pid :
  pid (vars first_run) = 4242
  /\ pid (vars (snd (Cleanup first_run))) = 4242
  /\ pid initial = 0
  /\ vars (snd (Cleanup first_run)) <> initial
  /\ forall w, vars (snd (Cleanup w)) = set_pid (pid (vars w)) initial.
Proof.
  repeat split; try reflexivity.
  intros H. apply (f_equal pid) in H. vm_compute in H. discriminate.
Qed.

(** The leak is visible: configure the second run to omit the process id and
    its initialization record still reports the process id of the first. *)
Lemma Cleanup_pid_leaks_into_next_Init :
  let second :=
    snd ((Cleanup;; SetIgnoreKeys [PIDKey];; SetLevel DebugLevel;; Init) first_run) in
  exists z,
    last (trace second) =
      Some (ZapLog z DebugLevel "INIT_LOGGER"
              [Console "Severity: DEBUG, Output: Pretty, FileName: , PID: 4242"])
    /\ ~ In PIDKey (map zap.Key (zap.context z)).
Proof.
  eexists. split; [vm_compute; reflexivity|].
  vm_compute. intros H. repeat (destruct H as [H|H]; [discriminate|]). exact H.
Qed.

(** ** Leveled emission *)

(** The free functions forward to the engine at their own level, after the
    console renderer has been told the same level. *)
Lemma emitAt_forwards (L : Level) (w : World) (z : zap.Logger)
    (message : string) (fields : list zap.Field) :
  In L severities -> zapLogger (vars w) = Some z ->
  trace (snd (emitAt L message fields w)) =
    (trace w
     ++ match pretty (vars w) with
        | Some p => [PrettyLog p message L fields]
        | None => []
        end
     ++ [ZapLog z L message fields])%list
  /\ fst (emitAt L message fields w) =
       (if zapcore.Level_eqb L FatalLevel then Exited 1 else Done tt).
Proof.
  intros HL Hz. explode w. subst.
  unfold severities in HL. cbn in HL.
  destruct HL as [<-|[<-|[<-|[<-|[<-|[]]]]]];
    destruct pretty0; tidy; split; reflexivity.
Qed.

(** The methods [Debug], [Info] and [Warn] of a [*Logger] forward at their
    own level, with the persistent fields appended. *)
Lemma Logger_emitAt_forwards (L : Level) (w : World) (l : nat) (v : Logger.t)
    (message : string) (fields : list zap.Field) :
  In L [DebugLevel; InfoLevel; WarnLevel] -> heap w !! l = Some v ->
  Logger_emitAt L l message fields w =
    (Done tt,
     with_trace
       (trace w
        ++ match Logger.pretty v with
           | Some p => [PrettyLog p message L (fields ++ Logger.fields v)]
           | None => []
           end
        ++ [ZapLog (Logger.zapLogger v) L message (fields ++ Logger.fields v)])
       w).
Proof.
  intros HL Hv. destruct w as [s h e q t]. cbn in Hv.
  cbn in HL. destruct HL as [<-|[<-|[<-|[]]]];
    cbn [Logger_emitAt DebugLevel InfoLevel WarnLevel];
    unfold Logger_Debug, Logger_Info, Logger_Warn, Logger_logger, pretty_log,
           zap_Debug, zap_Info, zap_Warn, append;
    receiver Hv; destruct (Logger.pretty v); receiver Hv; reflexivity.
Qed.

(** C1 on the code. Called on any logger [v], stored at any address [l],
    [Logger.Error] tells the console renderer level error but calls the
    engine method of level warn, and [Logger.Fatal] tells the renderer level
    fatal, calls the engine method of level warn and returns: no engine call
    at error or fatal level is made and the process goes on. *)
Theorem Logger_Error_Fatal_forward_at_warn (w : World) (l : nat) (v : Logger.t)
    (message : string) (fields : list zap.Field) :
  let w1 := with_heap (<[l := v]> (heap w)) w in
  let sent := match Logger.pretty v with
              | Some p => fun L => [PrettyLog p message L (fields ++ Logger.fields v)]
              | None => fun _ => []
              end in
  Logger_Error l message fields w1 =
    (Done tt,
     with_trace
       (trace w ++ sent ErrorLevel
        ++ [ZapLog (Logger.zapLogger v) WarnLevel message (fields ++ Logger.fields v)])
       w1)
  /\ Logger_Fatal l message fields w1 =
    (Done tt,
     with_trace
       (trace w ++ sent FatalLevel
        ++ [ZapLog (Logger.zapLogger v) WarnLevel message (fields ++ Logger.fields v)])
       w1)
  /\ engine_levels (trace (snd (Logger_Error l message fields w1)))
     = (engine_levels (trace w) ++ [WarnLevel])%list
  /\ engine_levels (trace (snd (Logger_Fatal l message fields w1)))
     = (engine_levels (trace w) ++ [WarnLevel])%list.
Proof.
  intros w1 sent.
  assert (Hv : heap w1 !! l = Some v) by (subst w1; cbn; apply lookup_insert_eq).
  assert (HE : Logger_Error l message fields w1 =
    (Done tt, with_trace
       (trace w ++ sent ErrorLevel
        ++ [ZapLog (Logger.zapLogger v) WarnLevel message (fields ++ Logger.fields v)])
       w1)).
  { unfold Logger_Error, Logger_logger, pretty_log, zap_Warn, append.
    subst sent. destruct w as [s h e q t]. cbn in *.
    receiver Hv; destruct (Logger.pretty v); receiver Hv; reflexivity. }
  assert (HF : Logger_Fatal l message fields w1 =
    (Done tt, with_trace
       (trace w ++ sent FatalLevel
        ++ [ZapLog (Logger.zapLogger v) WarnLevel message (fields ++ Logger.fields v)])
       w1)).
  { unfold Logger_Fatal, Logger_logger, pretty_log, zap_Warn, append.
    subst sent. destruct w as [s h e q t]. cbn in *.
    receiver Hv; destruct (Logger.pretty v); receiver Hv; reflexivity. }
  split; [exact HE|]. split; [exact HF|].
  rewrite HE, HF. cbn [snd trace with_trace].
  rewrite !engine_levels_app. subst sent.
  destruct (Logger.pretty v); split; reflexivity.
Qed.

(** The same on a concrete run: an error and a fatal emission through the
    logger at address 1 produce two engine calls, both at warn level. *)
Lemma Logger_Error_Fatal_example :
  let w := world initial box in
  fst ((Logger_Error 1 "ERROR_MESSAGE" [];; Logger_Fatal 1 "FATAL_MESSAGE" []) w) = Done tt
  /\ engine_levels
       (trace (snd ((Logger_Error 1 "ERROR_MESSAGE" [];;
                     Logger_Fatal 1 "FATAL_MESSAGE" []) w)))
     = [WarnLevel; WarnLevel].
Proof. split; vm_compute; reflexivity. Qed.

(** ** Naming *)

Lemma Logger_Named_runs (w : World) (l : nat) (v : Logger.t) (loggerName : string) :
  heap w !! l = Some v ->
  Logger_Named l loggerName w = (Done l, with_heap (<[l := named loggerName v]> (heap w)) w).
Proof.
  intros Hv. destruct w as [s h e q t]. cbn in Hv.
  unfold Logger_Named, named. destruct v as [[p|] z fs]; cbn [Logger.pretty].
  - receiver Hv. now rewrite insert_insert_eq.
  - receiver Hv. reflexivity.
Qed.

(** C10. [l.Named(name)] returns the address [l] it was called on and
    changes the logger stored there in place: the engine handle becomes the
    named one, the console prefix is set, the persistent fields stay as they
    were. No logger is allocated and no other logger changes, so a later
    emission through the original reference goes to the named handle. *)
Theorem Named_returns_its_receiver (w : World) (l : nat) (v : Logger.t)
    (loggerName : string) :
  heap w !! l = Some v ->
  let w' := snd (Logger_Named l loggerName w) in
  fst (Logger_Named l loggerName w) = Done l
  /\ heap w' !! l =
       Some {| Logger.pretty :=
                 SetPrefix (String.append loggerName " | ") <$> Logger.pretty v;
               Logger.zapLogger := zap.Named loggerName (Logger.zapLogger v);
               Logger.fields := Logger.fields v |}
  /\ (forall l', l' <> l -> heap w' !! l' = heap w !! l')
  /\ dom (heap w') = dom (heap w)
  /\ vars w' = vars w /\ trace w' = trace w
  /\ forall message fields,
       In (ZapLog (zap.Named loggerName (Logger.zapLogger v)) InfoLevel message
             (fields ++ Logger.fields v))
          (trace (snd (Logger_Info l message fields w'))).
Proof.
  intros Hv w'. subst w'. rewrite (Logger_Named_runs w l v loggerName Hv).
  cbn [fst snd heap vars trace with_heap].
  split; [reflexivity|]. split; [apply lookup_insert_eq|].
  split; [intros l' Hl; now apply lookup_insert_ne|].
  split; [apply dom_insert_lookup_L; eauto|].
  split; [reflexivity|]. split; [reflexivity|].
  intros message fields.
  pose proof (Logger_emitAt_forwards InfoLevel
                (with_heap (<[l:=named loggerName v]> (heap w)) w) l
                (named loggerName v) message fields) as H.
  cbn [Logger_emitAt InfoLevel] in H. rewrite H.
  - cbn [snd trace with_trace with_heap named Logger.zapLogger Logger.fields].
    apply in_or_app. right. apply in_or_app. right. now left.
  - cbn. tauto.
  - cbn. apply lookup_insert_eq.
Qed.

Lemma Named_returns_its_receiver_witness :
  let w := world initial box in
  fst (Logger_Named 1 "api" w) = Done 1%nat
  /\ heap (snd (Logger_Named 1 "api" w)) !! 1%nat =
       Some {| Logger.pretty := Some {| Prefix := "api | " |};
               Logger.zapLogger := zap.Named "api" file_handle;
               Logger.fields := [zap.String "user_name" "Alice"] |}.
Proof.
  destruct (Named_returns_its_receiver (world initial box) 1 alice "api")
    as (H1 & H2 & _).
  - reflexivity.
  - split; [exact H1 | exact H2].
Defined.

(** ** Omitted keys *)

Lemma Contains_In (ks : list Key) (k : Key) : In k ks -> Contains ks k = true.
Proof.
  intros H. unfold Contains. apply existsb_exists.
  exists k. split; [exact H | apply String.eqb_refl].
Qed.

(** [setOmitKeys] clears exactly the keys whose Key is in the omission set,
    and leaves the others as they were. *)
Lemma setOmitKeys_fold (ks : list Key) (e : zapcore.EncoderConfig) :
  fold_left (fun e k => setOmitKey k e) ks e =
  {| zapcore.MessageKey :=
       if Contains ks MessageKey then zapcore.OmitKey else zapcore.MessageKey e;
     zapcore.LevelKey :=
       if Contains ks LevelKey then zapcore.OmitKey else zapcore.LevelKey e;
     zapcore.TimeKey :=
       if Contains ks TimeKey then zapcore.OmitKey else zapcore.TimeKey e;
     zapcore.NameKey :=
       if Contains ks LoggerKey then zapcore.OmitKey else zapcore.NameKey e;
     zapcore.CallerKey :=
       if Contains ks CallerKey then zapcore.OmitKey else zapcore.CallerKey e;
     zapcore.FunctionKey :=
       if Contains ks FunctionKey then zapcore.OmitKey else zapcore.FunctionKey e;
     zapcore.StacktraceKey :=
       if Contains ks StacktraceKey then zapcore.OmitKey else zapcore.StacktraceKey e;
     zapcore.EncodeLevel := zapcore.EncodeLevel e;
     zapcore.EncodeTime := zapcore.EncodeTime e;
     zapcore.EncodeDuration := zapcore.EncodeDuration e;
     zapcore.EncodeCaller := zapcore.EncodeCaller e |}.
Proof.
  revert e. induction ks as [|a ks IH]; intros e.
  - destruct e; reflexivity.
  - cbn [fold_left]. rewrite IH. unfold Contains. cbn [existsb].
    rewrite !(String.eqb_sym _ a). unfold setOmitKey.
    repeat match goal with
           | |- context [String.eqb a ?K] =>
               let E := fresh "E" in
               destruct (String.eqb a K) eqn:E;
               [apply String.eqb_eq in E; subst a; cbn; f_equal;
                try reflexivity;
                match goal with
                | |- context [existsb ?f ks] => destruct (existsb f ks)
                end; reflexivity|]
           end.
    reflexivity.
Qed.

Lemma In_keep (k x : string) : In k (zapcore.keep x) -> k = x /\ x <> zapcore.OmitKey.
Proof.
  unfold zapcore.keep. destruct (String.eqb_spec x zapcore.OmitKey) as [->|Hx].
  - intros [].
  - intros [<-|[]]. now split.
Qed.

Lemma In_entry_keys (k : string) (e : zapcore.EncoderConfig) (named stack : bool) :
  In k (zapcore.entry_keys e named stack) ->
  k <> zapcore.OmitKey
  /\ (k = zapcore.LevelKey e \/ k = zapcore.TimeKey e \/ k = zapcore.NameKey e
      \/ k = zapcore.CallerKey e \/ k = zapcore.FunctionKey e
      \/ k = zapcore.MessageKey e \/ k = zapcore.StacktraceKey e).
Proof.
  unfold zapcore.entry_keys. rewrite !in_app_iff.
  destruct named, stack; cbn [In];
    intuition (try match goal with
                   | H : In _ (zapcore.keep _) |- _ => apply In_keep in H; destruct H; subst
                   end; auto 10).
Qed.

(** ** Enrichment fields *)

(** [getAdditionalFields], case by case: it returns the fields that are not
    omitted, unless the hostname is wanted and cannot be resolved, where the
    error is printed and the [nil] result of [getHost] is dereferenced. *)
Lemma getAdditionalFields_runs (w : World) :
  getAdditionalFields w =
    if Contains (omitKeys (vars w)) HostnameKey
    then (Done (version_field w ++ pid_field w)%list, pid_stored w)
    else match os_Hostname (os w) with
         | ok h =>
             (Done (version_field w ++ [zap.String HostnameKey h] ++ pid_field w)%list,
              pid_stored w)
         | err e =>
             (Panicked nil_dereference, with_trace (trace w ++ [StdLog e]) w)
         end.
Proof.
  unfold getAdditionalFields, GetVersion, getHost, append, deref, log_Print,
         version_field, pid_field, pid_stored, version_in.
  explode w.
  destruct (Contains omitKeys0 VersionKey), (Contains omitKeys0 HostnameKey),
           (Contains omitKeys0 PIDKey), os_Hostname0, git_rev_parse0;
    tidy; destruct (String.eqb version0 EmptyString); tidy; reflexivity.
Qed.

Lemma newZapLogger_runs (w : World) :
  newZapLogger w =
    match getAdditionalFields w with
    | (Done fs, w') => (Done (handle (vars w) fs), w')
    | (Exited c, w') => (Exited c, w')
    | (Panicked y, w') => (Panicked y, w')
    | (Killed s, w') => (Killed s, w')
    end.
Proof.
  unfold newZapLogger, handle. tidy. unfold bind.
  destruct (getAdditionalFields w) as [[] ?]; reflexivity.
Qed.

Lemma newZapLogger_returns (w : World) :
  hostname_available w ->
  exists fs, newZapLogger w = (Done (handle (vars w) fs), pid_stored w)
             /\ getAdditionalFields w = (Done fs, pid_stored w).
Proof.
  intros H. rewrite newZapLogger_runs, getAdditionalFields_runs.
  destruct H as [-> | [h ->]].
  - eexists; split; reflexivity.
  - destruct (Contains _ HostnameKey); eexists; split; reflexivity.
Qed.

Ltac known_key H :=
  unfold allKeys, encoderKeys, enrichmentKeys in H; cbn [app In] in H;
  repeat (destruct H as [H|H]; [symmetry in H|]); [..|destruct H].

Lemma omitted_encoder_key_cleared (s : State) (k : Key) :
  In k encoderKeys -> In k (omitKeys s) ->
  configured k (setOmitKeys s (encoderConfig s)) = zapcore.OmitKey.
Proof.
  intros Hk Ho. apply Contains_In in Ho.
  unfold setOmitKeys. rewrite setOmitKeys_fold.
  unfold encoderKeys in Hk. cbn [In] in Hk.
  repeat (destruct Hk as [Hk|Hk]; [subst k; cbn; now rewrite Ho|]).
  destruct Hk.
Qed.

Lemma omitted_key_not_written (s : State) (k : Key) (named stack : bool) :
  In k allKeys -> In k (omitKeys s) ->
  ~ In k (zapcore.entry_keys (setOmitKeys s (encoderConfig s)) named stack).
Proof.
  intros Hk Ho Hin. apply Contains_In in Ho.
  apply In_entry_keys in Hin. destruct Hin as [Hne Hin].
  unfold setOmitKeys in Hin. rewrite setOmitKeys_fold in Hin. cbn in Hin.
  known_key Hk; subst k; rewrite ?Ho in Hin;
    repeat match type of Hin with
           | context [Contains ?ks ?K] => destruct (Contains ks K)
           end;
    intuition (discriminate || (now apply Hne)).
Qed.

Lemma omitted_key_not_attached (w : World) (k : Key) (fs : list zap.Field) (w' : World) :
  In k allKeys -> In k (omitKeys (vars w)) ->
  getAdditionalFields w = (Done fs, w') ->
  ~ In k (map zap.Key fs).
Proof.
  intros Hk Ho. apply Contains_In in Ho.
  rewrite getAdditionalFields_runs. unfold version_field, pid_field.
  known_key Hk; subst k; rewrite ?Ho;
    repeat match goal with
           | |- context [Contains ?ks ?K] => destruct (Contains ks K)
           | |- context [os_Hostname ?e] => destruct (os_Hostname e)
           end;
    intros [= <- <-]; cbn; intuition discriminate.
Qed.

(** ** Initialization *)

Lemma getAdditionalFields_returns (w : World) :
  hostname_available w ->
  getAdditionalFields w = (Done (enrichment w), pid_stored w).
Proof.
  intros H. rewrite getAdditionalFields_runs. unfold enrichment.
  destruct H as [-> | [h ->]]; [reflexivity|].
  destruct (Contains _ HostnameKey); reflexivity.
Qed.

Lemma Init_runs (w : World) :
  once (vars w) = false -> hostname_available w ->
  Init w =
    (Done tt,
     with_trace (trace w ++ Init_events w) (with_vars (set_once true (Init_vars w)) w)).
Proof.
  intros Ho Hh.
  assert (Hh' : hostname_available
                  (with_vars (set_pretty (Init_pretty w) (vars w)) w))
    by (destruct w as [[] ? ? ? ?]; exact Hh).
  unfold Init, Debug, logger, checkInit.
  unfold Init_events, Init_fields, Init_vars, Init_handle.
  unfold Init_pretty in *.
  explode w. subst.
  destruct outputType0; tidy;
    rewrite newZapLogger_runs;
    match goal with
    | |- context [getAdditionalFields ?W] =>
        rewrite (getAdditionalFields_returns W Hh')
    end;
    unfold pid_stored; tidy;
    destruct (Contains omitKeys0 PIDKey); tidy;
    try destruct pretty0; tidy; reflexivity.
Qed.

Lemma Init_handle_core (w : World) :
  zap.enc (Init_handle w) = setOmitKeys (vars w) (encoderConfig (vars w))
  /\ zap.sinks (Init_handle w) = getSyncers (vars w)
  /\ zap.level (Init_handle w) = severityLevel (vars w)
  /\ zap.context (Init_handle w) = enrichment w.
Proof. destruct w as [[] ? ? ? ?]. repeat split. Qed.


(** C3. Take any configuration (any output mode) and any Key of the data
    model that is in the omission set. The handle that [Init] installs has
    the encoder key of an omitted encoder Key cleared to [OmitKey], carries
    no enrichment field of that name, and so the field names the logger
    itself contributes to a record (those the encoder writes and those of
    the enrichment fields) never contain the omitted Key. *)
Theorem omitted_keys_absent (w : World) (k : Key) (named stack : bool) :
  once (vars w) = false -> hostname_available w ->
  In k allKeys -> In k (omitKeys (vars w)) ->
  exists z,
    fst (Init w) = Done tt
    /\ zapLogger (vars (snd (Init w))) = Some z
    /\ (In k encoderKeys -> configured k (zap.enc z) = zapcore.OmitKey)
    /\ (In k enrichmentKeys -> ~ In k (map zap.Key (zap.context z)))
    /\ ~ In k (own_keys z named stack).
Proof.
  intros Ho Hh Hk Hin. exists (Init_handle w).
  rewrite (Init_runs w Ho Hh). cbn [fst snd].
  destruct (Init_handle_core w) as (He & _ & _ & Hc).
  assert (Hfs : ~ In k (map zap.Key (zap.context (Init_handle w)))).
  { rewrite Hc.
    apply (omitted_key_not_attached w k (enrichment w) (pid_stored w) Hk Hin).
    now apply getAdditionalFields_returns. }
  split; [reflexivity|]. split; [destruct w as [[] ? ? ? ?]; reflexivity|].
  split; [intros Hk'; rewrite He; now apply omitted_encoder_key_cleared|].
  split; [intros _; exact Hfs|].
  unfold own_keys. rewrite in_app_iff, He. intros [H|H].
  - now apply (omitted_key_not_written (vars w) k named stack Hk Hin).
  - now apply Hfs.
Qed.

Lemma omitted_keys_absent_witness :
  let w := world (set_omitKeys [TimeKey; PIDKey] initial) box in
  exists z,
    fst (Init w) = Done tt
    /\ zapLogger (vars (snd (Init w))) = Some z
    /\ (In TimeKey encoderKeys -> configured TimeKey (zap.enc z) = zapcore.OmitKey)
    /\ (In TimeKey enrichmentKeys -> ~ In TimeKey (map zap.Key (zap.context z)))
    /\ ~ In TimeKey (own_keys z true true).
Proof.
  apply (omitted_keys_absent (world (set_omitKeys [TimeKey; PIDKey] initial) box)
           TimeKey true true).
  - reflexivity.
  - right. exists "box". reflexivity.
  - cbn. tauto.
  - cbn. tauto.
Defined.

(** C4 on the code. With the declared configuration (the hostname is not
    omitted) on a host whose name cannot be resolved, [getHost] prints the
    error and returns [nil], [getAdditionalFields] dereferences it, and
    [Init] ends in a panic: no logger is installed. *)
Theorem Init_panics_when_hostname_fails :
  let w := world initial lost in
  Contains (omitKeys (vars w)) HostnameKey = false
  /\ fst (getAdditionalFields w) = Panicked nil_dereference
  /\ fst (newZapLogger w) = Panicked nil_dereference
  /\ fst (Init w) = Panicked nil_dereference
  /\ zapLogger (vars (snd (Init w))) = None
  /\ trace (snd (Init w)) = [StdLog "hostname: unknown"].
Proof. repeat split; vm_compute; reflexivity. Qed.

(** The same for every configuration that wants the hostname. *)
Lemma newZapLogger_panics_without_hostname (w : World) (e : string) :
  Contains (omitKeys (vars w)) HostnameKey = false ->
  os_Hostname (os w) = err e ->
  newZapLogger w = (Panicked nil_dereference, with_trace (trace w ++ [StdLog e]) w).
Proof.
  intros Hc He. rewrite newZapLogger_runs, getAdditionalFields_runs, Hc, He.
  reflexivity.
Qed.




(** ** Flush on signal *)

Lemma SyncWhenStop_skips (w : World) :
  outputType (vars w) = ConsoleOutput \/ outputType (vars w) = ConsoleAndFileOutput ->
  SyncWhenStop w = (Done tt, w).
Proof. intros [H|H]; unfold SyncWhenStop; run; rewrite H; reflexivity. Qed.

Lemma marker_text (s : Signal) :
  String.append "GOT_SIGNAL_" (ToUpper (Signal_String s)) = marker s.
Proof. destruct s; reflexivity. Qed.

Lemma signal_after_SyncWhenStop (w : World) (z : zap.Logger) (s : Signal) :
  zapLogger (vars w) = Some z ->
  outputType (vars w) = PrettyOutput \/ outputType (vars w) = FileOutput ->
  s = SIGINT \/ s = SIGTERM ->
  (SyncWhenStop;; deliver s) w =
    (Exited (exit_code s),
     with_waiting []
       (with_trace
          (trace w ++ [SignalNotify [SIGINT; SIGTERM]]
           ++ match pretty (vars w) with
              | Some p => [PrettyLog p (marker s) DebugLevel []]
              | None => []
              end
           ++ [ZapLog z DebugLevel (marker s) []; ZapSync z]
           ++ match sync_error (os w) with Some msg => [StdLog msg] | None => [] end
           ++ match pretty (vars w) with
              | Some p => [PrettyPrintTraces p]
              | None => []
              end)
          w)).
Proof.
  intros Hz Ho Hs. unfold SyncWhenStop, deliver, onSignal, Debug, logger, checkInit, Sync.
  explode w. subst.
  destruct Ho, Hs; subst; destruct sync_error0, pretty0; tidy; reflexivity.
Qed.

(** C7, as the code has it. After initialization and in the output modes
    Pretty and File, once [SyncWhenStop] has been called, an interrupt leads
    to exactly one engine call (the marker GOT_SIGNAL_INTERRUPT, at debug
    level), exactly one flush, and exit code 130; a termination signal
    likewise, with the marker GOT_SIGNAL_TERMINATED and exit code 143. In
    the modes Console and ConsoleAndFile [SyncWhenStop] returns at once and
    subscribes to no signal. *)
Theorem SyncWhenStop_flushes_and_exits (w : World) (z : zap.Logger) (s : Signal) :
  zapLogger (vars w) = Some z ->
  s = SIGINT \/ s = SIGTERM ->
  (outputType (vars w) = PrettyOutput \/ outputType (vars w) = FileOutput ->
     fst ((SyncWhenStop;; deliver s) w)
       = Exited (128 + match s with SIGINT => 2 | SIGTERM => 15 | SIGHUP => 0 end)
     /\ engine_calls (trace (snd ((SyncWhenStop;; deliver s) w)))
        = (engine_calls (trace w) ++ [ZapLog z DebugLevel (marker s) []])%list
     /\ flushes (trace (snd ((SyncWhenStop;; deliver s) w))) = S (flushes (trace w)))
  /\ (outputType (vars w) = ConsoleOutput \/ outputType (vars w) = ConsoleAndFileOutput ->
      SyncWhenStop w = (Done tt, w)).
Proof.
  intros Hz Hs. split; [|apply SyncWhenStop_skips].
  intros Ho. rewrite (signal_after_SyncWhenStop w z s Hz Ho Hs).
  cbn [fst snd trace with_trace with_waiting].
  split; [destruct Hs; subst; reflexivity|].
  unfold engine_calls. rewrite !List.filter_app, !flushes_app.
  destruct (pretty (vars w)), (sync_error (os w)); cbn;
    rewrite ?app_nil_r; split; (reflexivity || lia).
Qed.

Lemma SyncWhenStop_flushes_and_exits_witness :
  let w := after_Init (set_severityLevel zapcore.DebugLevel) box in
  fst ((SyncWhenStop;; deliver SIGINT) w) = Exited 130
  /\ flushes (trace (snd ((SyncWhenStop;; deliver SIGINT) w))) = 1%nat.
Proof.
  destruct (SyncWhenStop_flushes_and_exits
              (after_Init (set_severityLevel zapcore.DebugLevel) box)
              (Init_handle (world (set_severityLevel zapcore.DebugLevel initial) box))
              SIGINT) as [H _].
  - reflexivity.
  - left. reflexivity.
  - destruct H as (H1 & _ & H3); [left; reflexivity|].
    split; [exact H1 | exact H3].
Defined.

(** C7 as stated fails in the modes with a console sink: [SyncWhenStop]
    returns before it subscribes, so an interrupt keeps its default action;
    no marker is logged, nothing is flushed and no exit code 130 is set. *)
Lemma SyncWhenStop_Console_ignores_signals :
  Forall (fun o =>
            let w := after_Init (fun s => set_severityLevel zapcore.DebugLevel
                                            (set_outputType o s)) box in
            (exists z, zapLogger (vars w) = Some z)
            /\ (SyncWhenStop;; deliver SIGINT) w = (Killed SIGINT, w))
         [ConsoleOutput; ConsoleAndFileOutput].
Proof.
  repeat constructor; try (eexists; reflexivity); vm_compute; reflexivity.
Qed.

(** ** Setters by name *)

Lemma Output_String_in (o : Output) : In (Output_String o) outputStrings.
Proof. destruct o; cbn; tauto. Qed.






(** * Further properties *)

Arguments Init : simpl never.

Lemma bind_Done {A B : Type} (m : Go A) (k : A -> Go B) (w w' : World) (a : A) :
  m w = (Done a, w') -> bind m k w = k a w'.
Proof. intros H. unfold bind. now rewrite H. Qed.

Lemma Init_again (w : World) : once (vars w) = true -> Init w = (Done tt, w).
Proof. intros H. unfold Init, once_Do, bind, get. now rewrite H. Qed.

(** The world in which [Init] has run. *)
Lemma Init_world (w : World) :
  once (vars w) = false -> hostname_available w ->
  once (vars (snd (Init w))) = true
  /\ zapLogger (vars (snd (Init w))) = Some (Init_handle w)
  /\ pretty (vars (snd (Init w))) = Init_pretty w
  /\ outputType (vars (snd (Init w))) = outputType (vars w)
  /\ trace (snd (Init w)) = (trace w ++ Init_events w)%list.
Proof.
  intros Ho Hh. rewrite (Init_runs w Ho Hh).
  destruct w as [[] ? ? ? ?]. cbn. unfold pid_stored. cbn.
  destruct (Contains _ PIDKey); repeat split.
Qed.

(** ** Initialization happens once *)

(** X1. Once [Init] has run, a second [Init] does nothing, whatever was
    changed in the configuration in between: no new record, no new handle;
    the installed handle is still the one of the first configuration. *)
Theorem Init_only_once (w : World) (o : Output) (lvl : Level) (ks : list Key) :
  once (vars w) = false -> hostname_available w ->
  (Init;; SetOutput o;; SetLevel lvl;; SetIgnoreKeys ks;; Init) w
    = (Init;; SetOutput o;; SetLevel lvl;; SetIgnoreKeys ks) w
  /\ zapLogger
       (vars (snd ((Init;; SetOutput o;; SetLevel lvl;; SetIgnoreKeys ks;; Init) w)))
     = Some (Init_handle w)
  /\ zap.sinks (Init_handle w) = getSyncers (vars w)
  /\ zap.level (Init_handle w) = severityLevel (vars w).
Proof.
  intros Ho Hh.
  destruct (Init_world w Ho Hh) as (H1 & H2 & _).
  destruct (Init w) as [r w1] eqn:E. cbn [snd] in *.
  assert (r = Done tt) by (rewrite (Init_runs w Ho Hh) in E; congruence). subst r.
  rewrite !(bind_Done Init _ w w1 tt E).
  unfold SetOutput, SetLevel, SetIgnoreKeys.
  assert (Hrun : forall k : unit -> Go unit,
             (assign (set_outputType o);; assign (set_severityLevel lvl);;
              assign (set_omitKeys ks);; k tt) w1
             = k tt (with_vars (set_omitKeys ks (set_severityLevel lvl
                                  (set_outputType o (vars w1)))) w1)).
  { intros k. destruct w1 as [[] ? ? ? ?]. reflexivity. }
  split.
  - rewrite (Hrun (fun _ => Init)). rewrite Init_again.
    + destruct w1 as [[] ? ? ? ?]. reflexivity.
    + destruct w1 as [[] ? ? ? ?]. exact H1.
  - split; [|split; apply Init_handle_core].
    rewrite (Hrun (fun _ => Init)). rewrite Init_again.
    + destruct w1 as [[] ? ? ? ?]. exact H2.
    + destruct w1 as [[] ? ? ? ?]. exact H1.
Qed.

Lemma Init_only_once_witness :
  let w := world initial box in
  zapLogger
    (vars (snd ((Init;; SetOutput ConsoleOutput;; SetLevel DebugLevel;;
                 SetIgnoreKeys [TimeKey];; Init) w)))
  = Some (Init_handle w).
Proof.
  destruct (Init_only_once (world initial box) ConsoleOutput DebugLevel [TimeKey])
    as (_ & H & _).
  - reflexivity.
  - right. exists "box". reflexivity.
  - exact H.
Defined.

(** ** Emission needs initialization *)



(** ** Level filtering *)

(** X3. After [Init] under minimum level [m], an emission at severity [L]
    through the free functions is written once to each sink of the
    configured output mode, in order, when [m <= L], and to no sink
    otherwise. *)
Theorem emission_is_filtered_by_level (w : World) (L : Level)
    (message : string) (fields : list zap.Field) :
  once (vars w) = false -> hostname_available w -> In L severities ->
  records (trace (snd ((Init;; emitAt L message fields) w)))
  = (records (trace (snd (Init w)))
     ++ (if zapcore.Level_int8 (severityLevel (vars w)) <=? zapcore.Level_int8 L
         then map (fun sink => (sink, message)) (getSyncers (vars w))
         else []))%list.
Proof.
  intros Ho Hh HL.
  destruct (Init_world w Ho Hh) as (_ & Hz & _).
  destruct (Init w) as [r w1] eqn:E. cbn [snd] in *.
  assert (r = Done tt) by (rewrite (Init_runs w Ho Hh) in E; congruence). subst r.
  rewrite (bind_Done Init _ w w1 tt E).
  destruct (emitAt_forwards L w1 (Init_handle w) message fields HL Hz) as [Ht _].
  rewrite Ht, !records_app. f_equal.
  replace (records match pretty (vars w1) with
                   | Some p => [PrettyLog p message L fields]
                   | None => []
                   end) with (@nil (zapcore.WriteSyncer * string))
    by (destruct (pretty (vars w1)); reflexivity).
  destruct (Init_handle_core w) as (_ & Hs & Hl & _).
  unfold records. cbn [map concat written app]. rewrite Hs, Hl, app_nil_r.
  reflexivity.
Qed.

Lemma emission_is_filtered_by_level_witness :
  let w := world (set_outputType ConsoleAndFileOutput
                    (set_severityLevel WarnLevel initial)) box in
  records (trace (snd ((Init;; emitAt InfoLevel "USER_INFO" []) w))) = []
  /\ records (trace (snd ((Init;; emitAt ErrorLevel "ERROR_MESSAGE" []) w)))
     = [(zapcore.Stderr, "ERROR_MESSAGE"); (newRotator initial, "ERROR_MESSAGE")].
Proof.
  split.
  - rewrite (emission_is_filtered_by_level
               (world (set_outputType ConsoleAndFileOutput
                         (set_severityLevel WarnLevel initial)) box)
               InfoLevel "USER_INFO" []).
    + reflexivity.
    + reflexivity.
    + right. exists "box". reflexivity.
    + cbn. tauto.
  - rewrite (emission_is_filtered_by_level
               (world (set_outputType ConsoleAndFileOutput
                         (set_severityLevel WarnLevel initial)) box)
               ErrorLevel "ERROR_MESSAGE" []).
    + reflexivity.
    + reflexivity.
    + right. exists "box". reflexivity.
    + cbn. tauto.
Defined.

(** ** Methods of a logger *)

(** X4. [Debug], [Info] and [Warn] of a [*Logger] need no [Init]: on any
    world they return, make exactly one engine call on the logger's own
    handle at their level, with the persistent fields after the
    call-supplied ones, and change neither the logger nor the package
    variables. *)
Theorem Logger_methods_forward_merged_fields (L : Level) (w : World) (l : nat)
    (v : Logger.t) (message : string) (fields : list zap.Field) :
  In L [DebugLevel; InfoLevel; WarnLevel] -> heap w !! l = Some v ->
  fst (Logger_emitAt L l message fields w) = Done tt
  /\ heap (snd (Logger_emitAt L l message fields w)) = heap w
  /\ vars (snd (Logger_emitAt L l message fields w)) = vars w
  /\ engine_calls (trace (snd (Logger_emitAt L l message fields w)))
     = (engine_calls (trace w)
        ++ [ZapLog (Logger.zapLogger v) L message (fields ++ Logger.fields v)])%list.
Proof.
  intros HL Hv. rewrite (Logger_emitAt_forwards L w l v message fields HL Hv).
  cbn [fst snd heap vars trace with_trace].
  repeat split.
  unfold engine_calls. rewrite !List.filter_app.
  destruct (Logger.pretty v); reflexivity.
Qed.

Lemma Logger_methods_forward_merged_fields_witness :
  engine_calls (trace (snd (Logger_Info 1 "USER_INFO" [zap.Int "user_age" 20]
                              (world initial box))))
  = [ZapLog file_handle InfoLevel "USER_INFO"
       [zap.Int "user_age" 20; zap.String "user_name" "Alice"]].
Proof.
  destruct (Logger_methods_forward_merged_fields InfoLevel (world initial box) 1
              alice "USER_INFO" [zap.Int "user_age" 20]) as (_ & _ & _ & H).
  - cbn. tauto.
  - reflexivity.
  - exact H.
Defined.

(** ** Error-carrying emission *)

Section ErrorVariants.

Variable error : Type.
Variable field : error -> zap.Field.
Variable text : error -> string.

(** X5. On an initialized logger each free error-carrying function makes one
    engine call at its own level with the error field after the
    call-supplied fields, while the console renderer is handed the
    call-supplied fields and the error apart; [FatalErr] then exits with
    code 1, and [ErrRet] logs at error level and returns the error it was
    given. *)
Theorem error_variants_forward (L : Level) (w : World) (z : zap.Logger)
    (message : string) (e : error) (fields : list zap.Field) :
  In L severities -> zapLogger (vars w) = Some z ->
  let sent :=
    (trace w
     ++ match pretty (vars w) with
        | Some p => [PrettyLogWithError p message L (text e) fields]
        | None => []
        end
     ++ [ZapLog z L message (fields ++ [field e])])%list in
  emitErrAt error field text L message e fields w
    = (if zapcore.Level_eqb L FatalLevel then Exited 1 else Done tt,
       with_trace sent w)
  /\ (L = ErrorLevel ->
      Err error field text message e fields w = (Done tt, with_trace sent w)
      /\ ErrRet error field text message e fields w = (Done e, with_trace sent w)).
Proof.
  intros HL Hz. explode w. subst.
  unfold severities in HL. cbn in HL.
  destruct HL as [<-|[<-|[<-|[<-|[<-|[]]]]]];
    (split; [|intros [=]]); destruct pretty0; tidy; try reflexivity;
    split; reflexivity.
Qed.

(** X6. The error-carrying methods of a [*Logger] forward at their own
    level, [ErrorErr] at error and [FatalErr] at fatal (which exits with
    code 1), with the fields in the order call-supplied, error, persistent;
    the console renderer is handed the same merged list. [ErrRet] logs at
    error level and returns the error it was given. *)
Theorem Logger_error_variants_forward (L : Level) (w : World) (l : nat)
    (v : Logger.t) (message : string) (e : error) (fields : list zap.Field) :
  In L severities -> heap w !! l = Some v ->
  let merged := (fields ++ [field e] ++ Logger.fields v)%list in
  let sent :=
    (trace w
     ++ match Logger.pretty v with
        | Some p => [PrettyLogWithError p message L (text e) merged]
        | None => []
        end
     ++ [ZapLog (Logger.zapLogger v) L message merged])%list in
  Logger_emitErrAt error field text L l message e fields w
    = (if zapcore.Level_eqb L FatalLevel then Exited 1 else Done tt,
       with_trace sent w)
  /\ (L = ErrorLevel ->
      Logger_Err error field text l message e fields w = (Done tt, with_trace sent w)
      /\ Logger_ErrRet error field text l message e fields w
         = (Done e, with_trace sent w)).
Proof.
  intros HL Hv. destruct w as [s h o q t]. cbn in Hv.
  unfold severities in HL. cbn in HL.
  destruct HL as [<-|[<-|[<-|[<-|[<-|[]]]]]];
    (split; [|intros [=]]);
    cbn [Logger_emitErrAt DebugLevel InfoLevel WarnLevel ErrorLevel FatalLevel];
    unfold Logger_DebugErr, Logger_InfoErr, Logger_WarnErr, Logger_ErrorErr,
           Logger_FatalErr, Logger_Err, Logger_ErrRet, Logger_loggerErr, append;
    try split;
    receiver Hv; destruct (Logger.pretty v); receiver Hv; reflexivity.
Qed.

End ErrorVariants.

Lemma error_variants_forward_witness :
  fst (ErrRet string zap.Error id "ERROR_MESSAGE" sample_error []
         (after_Init (set_severityLevel zapcore.DebugLevel) box))
  = Done sample_error.
Proof.
  destruct (error_variants_forward string zap.Error id ErrorLevel
              (after_Init (set_severityLevel zapcore.DebugLevel) box)
              (Init_handle (world (set_severityLevel zapcore.DebugLevel initial) box))
              "ERROR_MESSAGE" sample_error []) as [_ H].
  - cbn. tauto.
  - reflexivity.
  - destruct (H eq_refl) as [_ H']. rewrite H'. reflexivity.
Defined.

Lemma Logger_error_variants_forward_witness :
  fst (Logger_FatalErr string zap.Error id 1 "FATAL_MESSAGE" sample_error []
         (world initial box)) = Exited 1
  /\ engine_levels
       (trace (snd (Logger_ErrorErr string zap.Error id 1 "ERROR_MESSAGE"
                      sample_error [] (world initial box))))
     = [ErrorLevel].
Proof.
  split.
  - destruct (Logger_error_variants_forward string zap.Error id FatalLevel
                (world initial box) 1 alice "FATAL_MESSAGE" sample_error [])
      as [H _].
    + cbn. tauto.
    + reflexivity.
    + cbn [Logger_emitErrAt FatalLevel] in H. rewrite H. reflexivity.
  - destruct (Logger_error_variants_forward string zap.Error id ErrorLevel
                (world initial box) 1 alice "ERROR_MESSAGE" sample_error [])
      as [H _].
    + cbn. tauto.
    + reflexivity.
    + cbn [Logger_emitErrAt ErrorLevel] in H. rewrite H. reflexivity.
Defined.

(** ** Enrichment and omission, exactly *)

Lemma Contains_true_iff (ks : list Key) (k : Key) : Contains ks k = true <-> In k ks.
Proof.
  split; [|apply Contains_In].
  unfold Contains. rewrite existsb_exists. intros (x & Hx & E).
  apply String.eqb_eq in E. now subst.
Qed.

Lemma Contains_same (ks ks' : list Key) (k : Key) :
  (In k ks <-> In k ks') -> Contains ks k = Contains ks' k.
Proof.
  intros H. destruct (Contains ks k) eqn:E, (Contains ks' k) eqn:E'; try reflexivity.
  - apply Contains_true_iff, H, Contains_true_iff in E. congruence.
  - apply Contains_true_iff, H, Contains_true_iff in E'. congruence.
Qed.

(** X7. The logger that [Init] installs carries exactly the enrichment
    fields that are not omitted, in the order version, hostname, pid; the
    pid field holds the process id, and a version set by [SetVersion] is
    the value of the version field. *)
Theorem enrichment_is_exactly_the_kept_keys (w : World) :
  once (vars w) = false -> hostname_available w ->
  exists z,
    zapLogger (vars (snd (Init w))) = Some z
    /\ map zap.Key (zap.context z) = kept_enrichment (vars w)
    /\ (Contains (omitKeys (vars w)) PIDKey = false ->
        In (zap.Int PIDKey (os_Getpid (os w))) (zap.context z)
        /\ pid (vars (snd (Init w))) = os_Getpid (os w))
    /\ (Contains (omitKeys (vars w)) VersionKey = false ->
        version (vars w) <> EmptyString ->
        In (zap.String VersionKey (version (vars w))) (zap.context z)).
Proof.
  intros Ho Hh. exists (Init_handle w).
  destruct (Init_world w Ho Hh) as (_ & Hz & _).
  split; [exact Hz|].
  destruct (Init_handle_core w) as (_ & _ & _ & Hc). rewrite Hc.
  rewrite (Init_runs w Ho Hh).
  unfold enrichment, kept_enrichment, version_field, pid_field, version_in,
         enrichmentKeys.
  cbn [List.filter].
  split; [|split].
  - destruct Hh as [Hh | [h Hh]]; rewrite Hh;
      destruct (Contains _ VersionKey), (Contains _ PIDKey);
      try destruct (Contains _ HostnameKey); reflexivity.
  - intros Hp. rewrite Hp. split.
    + rewrite !in_app_iff. right. right. now left.
    + destruct w as [[] ? ? ? ?]. cbn in *. unfold pid_stored. cbn.
      rewrite Hp. reflexivity.
  - intros Hv Hne. rewrite Hv. apply String.eqb_neq in Hne. rewrite Hne.
    rewrite !in_app_iff. left. now left.
Qed.

Lemma enrichment_is_exactly_the_kept_keys_witness :
  exists z,
    zapLogger (vars (snd (Init (world (set_omitKeys [HostnameKey] initial) lost))))
      = Some z
    /\ map zap.Key (zap.context z) = [VersionKey; PIDKey].
Proof.
  destruct (enrichment_is_exactly_the_kept_keys
              (world (set_omitKeys [HostnameKey] initial) lost))
    as (z & Hz & Hk & _).
  - reflexivity.
  - left. reflexivity.
  - exists z. split; [exact Hz | exact Hk].
Defined.

(** X8. [setOmitKeys] clears the encoder key of a Key exactly when the Key
    is in the omission set and leaves every other encoder key under its own
    name; the result depends only on which of the seven encoder Keys the
    set contains, not on order, repetition or other entries. *)
Theorem setOmitKeys_clears_exactly (s : State) (ks ks' : list Key) :
  (forall k, In k encoderKeys ->
     configured k (setOmitKeys s (encoderConfig s))
     = if Contains (omitKeys s) k then zapcore.OmitKey else k)
  /\ ((forall k, In k encoderKeys -> (In k ks <-> In k ks')) ->
      setOmitKeys (set_omitKeys ks s) (encoderConfig s)
      = setOmitKeys (set_omitKeys ks' s) (encoderConfig s)).
Proof.
  split.
  - intros k Hk. unfold setOmitKeys. rewrite setOmitKeys_fold.
    unfold encoderKeys in Hk. cbn [In] in Hk.
    repeat (destruct Hk as [Hk|Hk];
            [subst k; cbn; destruct (Contains (omitKeys s) _); reflexivity|]).
    destruct Hk.
  - intros H. unfold setOmitKeys. destruct s. cbn [omitKeys set_omitKeys].
    rewrite !setOmitKeys_fold.
    rewrite (Contains_same ks ks' MessageKey), (Contains_same ks ks' LevelKey),
            (Contains_same ks ks' TimeKey), (Contains_same ks ks' LoggerKey),
            (Contains_same ks ks' CallerKey), (Contains_same ks ks' FunctionKey),
            (Contains_same ks ks' StacktraceKey);
      try reflexivity; apply H; cbn; tauto.
Qed.

Lemma setOmitKeys_clears_exactly_witness :
  setOmitKeys (set_omitKeys [TimeKey; "custom"; CallerKey; TimeKey] initial)
    (encoderConfig initial)
  = setOmitKeys (set_omitKeys [CallerKey; TimeKey] initial) (encoderConfig initial).
Proof.
  destruct (setOmitKeys_clears_exactly initial
              [TimeKey; "custom"; CallerKey; TimeKey] [CallerKey; TimeKey]) as [_ H].
  apply H. intros k Hk. cbn in Hk. cbn.
  intuition (subst; try discriminate; auto).
Defined.

(** X9. When the hostname Key is omitted, [os.Hostname] is not consulted:
    [Init] returns, prints nothing on the standard logger, and installs the
    same logger whether or not the hostname can be resolved. *)
Theorem omitted_hostname_is_not_resolved (w : World) (r : result string) :
  once (vars w) = false -> In HostnameKey (omitKeys (vars w)) ->
  fst (Init (with_hostname r w)) = Done tt
  /\ zapLogger (vars (snd (Init (with_hostname r w))))
     = zapLogger (vars (snd (Init w)))
  /\ trace (snd (Init (with_hostname r w))) = trace (snd (Init w))
  /\ diagnostics (trace (snd (Init w))) = diagnostics (trace w).
Proof.
  intros Ho Hin. apply Contains_In in Hin.
  assert (Hh : hostname_available w) by (left; exact Hin).
  assert (Hh' : hostname_available (with_hostname r w)) by (left; exact Hin).
  rewrite (Init_runs w Ho Hh), (Init_runs (with_hostname r w) Ho Hh').
  cbn [fst snd vars trace with_trace with_vars].
  assert (He : enrichment (with_hostname r w) = enrichment w).
  { unfold enrichment. cbn. rewrite Hin.
    unfold version_field, pid_field, version_in. reflexivity. }
  assert (Hi : Init_handle (with_hostname r w) = Init_handle w).
  { unfold Init_handle. rewrite He. reflexivity. }
  assert (Hv : Init_vars (with_hostname r w) = Init_vars w).
  { unfold Init_vars. rewrite Hi. unfold pid_stored. cbn.
    destruct (Contains _ PIDKey); reflexivity. }
  assert (Hev : Init_events (with_hostname r w) = Init_events w).
  { unfold Init_events, Init_fields. rewrite Hi, Hv. reflexivity. }
  split; [reflexivity|]. split; [now rewrite Hv|]. split.
  - cbn. now rewrite Hev.
  - unfold diagnostics. rewrite map_app, concat_app.
    unfold Init_events. destruct (Init_pretty w); cbn; now rewrite app_nil_r.
Qed.

Lemma omitted_hostname_is_not_resolved_witness :
  fst (Init (world (set_omitKeys [HostnameKey] initial) lost)) = Done tt.
Proof.
  destruct (omitted_hostname_is_not_resolved
              (world (set_omitKeys [HostnameKey] initial) box)
              (err "hostname: unknown")) as [H _].
  - reflexivity.
  - cbn. tauto.
  - exact H.
Defined.

(** ** The version *)

Lemma TrimRight_newline_keeps (s : string) :
  ends_with_line_feed s = false -> TrimRight_newline s = s.
Proof.
  induction s as [|c r IH]; [reflexivity|].
  cbn [ends_with_line_feed TrimRight_newline]. destruct r as [|d r'].
  - intros H. cbn. rewrite H. reflexivity.
  - intros H. rewrite (IH H). cbn. now rewrite andb_false_r.
Qed.

Lemma TrimRight_newline_line_feed (s : string) :
  TrimRight_newline (String.append s line_feed) = TrimRight_newline s.
Proof.
  induction s as [|c r IH]; [reflexivity|].
  simpl. now rewrite IH.
Qed.

Lemma TrimRight_newline_trimmed (s : string) :
  ends_with_line_feed (TrimRight_newline s) = false.
Proof.
  induction s as [|c r IH]; [reflexivity|].
  cbn [TrimRight_newline].
  destruct (Ascii.eqb c "010") eqn:Ec; cbn [andb].
  - destruct (TrimRight_newline r) as [|d r'] eqn:Er; [reflexivity|].
    cbn [String.eqb ends_with_line_feed]. exact IH.
  - destruct (TrimRight_newline r) as [|d r'] eqn:Er.
    + cbn. exact Ec.
    + cbn [ends_with_line_feed]. exact IH.
Qed.

(** X10. [GetVersion] changes nothing and returns the version that was set,
    when one was set. Otherwise it returns the output of git with the line
    feeds at its end removed (a revision followed by one line feed gives the
    revision, and the result never ends in a line feed), or "undefined"
    when git fails. *)
Theorem GetVersion_precedence (w : World) :
  snd (GetVersion w) = w
  /\ (version (vars w) <> EmptyString -> fst (GetVersion w) = Done (version (vars w)))
  /\ (version (vars w) = EmptyString ->
      (forall out, git_rev_parse (os w) = ok out ->
         fst (GetVersion w) = Done (TrimRight_newline out)
         /\ ends_with_line_feed (TrimRight_newline out) = false
         /\ forall rev, out = String.append rev line_feed ->
              ends_with_line_feed rev = false ->
              fst (GetVersion w) = Done rev)
      /\ (forall msg, git_rev_parse (os w) = err msg ->
            fst (GetVersion w) = Done "undefined")).
Proof.
  unfold GetVersion. split; [|split].
  - explode w. destruct (String.eqb version0 EmptyString), git_rev_parse0; reflexivity.
  - intros H. apply String.eqb_neq in H. explode w. rewrite H. reflexivity.
  - intros H. explode w. subst. split.
    + intros out ->. split; [reflexivity|].
      split; [apply TrimRight_newline_trimmed|].
      intros rev -> Hr. tidy.
      now rewrite TrimRight_newline_line_feed, TrimRight_newline_keeps.
    + intros msg ->. reflexivity.
Qed.

Lemma GetVersion_precedence_witness :
  fst (GetVersion (world initial box)) = Done "e86b9a7".
Proof.
  destruct (GetVersion_precedence (world initial box)) as (_ & _ & H).
  destruct (H eq_refl) as [Hg _].
  destruct (Hg _ eq_refl) as (_ & _ & Hr).
  apply (Hr "e86b9a7"); reflexivity.
Defined.

(** ** The repository caller encoder *)

Lemma append_String (x : ascii) (a b : string) :
  String.append (String x a) b = String x (String.append a b).
Proof. reflexivity. Qed.

Lemma strip_prefix_app (old rest : string) :
  strip_prefix old (String.append old rest) = Some rest.
Proof.
  induction old as [|c r IH]; [now destruct rest|].
  rewrite append_String. cbn [strip_prefix]. now rewrite Ascii.eqb_refl.
Qed.

Lemma append_append (a b c : string) :
  String.append (String.append a b) c = String.append a (String.append b c).
Proof.
  induction a as [|x a IH]; [reflexivity|]. now rewrite !append_String, IH.
Qed.

Lemma Replace_first_prefix (old rest new : string) :
  Replace_first (String.append old rest) old new = String.append new rest.
Proof.
  assert (E : forall s, Replace_first s old new =
                match strip_prefix old s with
                | Some r => String.append new r
                | None => match s with
                          | EmptyString => EmptyString
                          | String c r => String c (Replace_first r old new)
                          end
                end) by (now intros []).
  now rewrite E, strip_prefix_app.
Qed.

Lemma Replace_first_absent (s old new : string) :
  occurs old s = false -> Replace_first s old new = s.
Proof.
  induction s as [|c r IH]; cbn [occurs Replace_first].
  - destruct (strip_prefix old EmptyString); [discriminate|reflexivity].
  - destruct (strip_prefix old (String c r)); [discriminate|].
    intros H. now rewrite IH.
Qed.

(** X11. The closure of [buildRepositoryCallerEncoder] renders a caller
    whose file lies under the source root as the URL, the path below the
    root, "#L" and the line; a file in which the root does not occur is
    rendered unchanged, followed by "#L" and the line. *)
Theorem repositoryCaller_rewrites_root (dir url : string) (Line : Z) :
  (forall rest,
     repositoryCaller dir url (String.append dir rest) Line
     = String.append url (String.append rest (String.append "#L" (itoa Line))))
  /\ (forall File, occurs dir File = false ->
        repositoryCaller dir url File Line
        = String.append File (String.append "#L" (itoa Line))).
Proof.
  unfold repositoryCaller. split.
  - intros rest.
    rewrite Replace_first_prefix. apply append_append.
  - intros File H. now rewrite Replace_first_absent.
Qed.

Lemma repositoryCaller_rewrites_root_witness :
  repositoryCaller "/home/me/zl" "https://example.com/blob/v1.0.0"
    "/usr/lib/go/proc.go" 250
  = "/usr/lib/go/proc.go#L250".
Proof.
  destruct (repositoryCaller_rewrites_root "/home/me/zl"
              "https://example.com/blob/v1.0.0" 250) as [_ H].
  apply H. reflexivity.
Defined.

(** X12. [SetRepositoryCallerEncoder] does nothing when the revision or the
    source root is empty. Otherwise the logger that a following [Init]
    installs encodes callers with the repository encoder of that root and
    of the formatted URL, whatever keys are omitted; a configuration that
    never set an encoder encodes callers with the short encoder. *)
Theorem SetRepositoryCallerEncoder_reaches_Init (Sprintf : string -> string -> string)
    (urlFormat revisionOrTag srcRootDir : string) (w : World) :
  (revisionOrTag = EmptyString \/ srcRootDir = EmptyString ->
     SetRepositoryCallerEncoder Sprintf urlFormat revisionOrTag srcRootDir w = (Done tt, w))
  /\ (once (vars w) = false -> hostname_available w ->
      (callerEncoder (vars w) = None ->
         zapcore.EncodeCaller (zap.enc (Init_handle w)) = zapcore.ShortCallerEncoder)
      /\ (revisionOrTag <> EmptyString -> srcRootDir <> EmptyString ->
          exists z,
            zapLogger
              (vars (snd ((SetRepositoryCallerEncoder Sprintf urlFormat revisionOrTag
                             srcRootDir;; Init) w))) = Some z
            /\ zapcore.EncodeCaller (zap.enc z)
               = zapcore.RepositoryCallerEncoder srcRootDir
                   (Sprintf urlFormat revisionOrTag))).
Proof.
  unfold SetRepositoryCallerEncoder. split.
  - intros [-> | ->]; [reflexivity|].
    now rewrite String.eqb_refl, orb_true_r.
  - intros Ho Hh. split.
    + intros Hc. destruct (Init_handle_core w) as (He & _). rewrite He.
      unfold setOmitKeys. rewrite setOmitKeys_fold. cbn.
      unfold getCallerEncoder. now rewrite Hc.
    + intros Hr Hs. apply String.eqb_neq in Hr, Hs. rewrite Hr, Hs. cbn [orb].
      set (w1 := with_vars
                   (set_callerEncoder
                      (Some (buildRepositoryCallerEncoder srcRootDir
                               (Sprintf urlFormat revisionOrTag))) (vars w)) w).
      assert (Ho1 : once (vars w1) = false) by (destruct w as [[] ? ? ? ?]; exact Ho).
      assert (Hh1 : hostname_available w1) by (destruct w as [[] ? ? ? ?]; exact Hh).
      exists (Init_handle w1).
      rewrite (bind_Done
                 (assign (set_callerEncoder
                            (Some (buildRepositoryCallerEncoder srcRootDir
                                     (Sprintf urlFormat revisionOrTag)))))
                 _ w w1 tt eq_refl).
      destruct (Init_world w1 Ho1 Hh1) as (_ & Hz & _).
      split; [exact Hz|].
      destruct (Init_handle_core w1) as (He & _). rewrite He.
      unfold setOmitKeys. rewrite setOmitKeys_fold.
      destruct w as [[] ? ? ? ?]. reflexivity.
Qed.

Lemma SetRepositoryCallerEncoder_reaches_Init_witness :
  SetRepositoryCallerEncoder (fun f a => String.append f a)
    "https://example.com/blob/" EmptyString "/home/me/zl" (world initial box)
  = (Done tt, world initial box)
  /\ exists z,
       zapLogger
         (vars (snd ((SetRepositoryCallerEncoder (fun f a => String.append f a)
                        "https://example.com/blob/" "v1.0.0" "/home/me/zl";;
                      Init) (world initial box)))) = Some z
       /\ zapcore.EncodeCaller (zap.enc z)
          = zapcore.RepositoryCallerEncoder "/home/me/zl"
              "https://example.com/blob/v1.0.0".
Proof.
  split.
  - destruct (SetRepositoryCallerEncoder_reaches_Init (fun f a => String.append f a)
                "https://example.com/blob/" EmptyString "/home/me/zl"
                (world initial box)) as [H _].
    apply H. left. reflexivity.
  - destruct (SetRepositoryCallerEncoder_reaches_Init (fun f a => String.append f a)
                "https://example.com/blob/" "v1.0.0" "/home/me/zl"
                (world initial box)) as [_ H].
    destruct H as [_ H].
    + reflexivity.
    + right. exists "box". reflexivity.
    + apply H; discriminate.
Defined.

(** ** Teardown and a new start *)

Lemma Cleanup_then (w : World) (k : Go unit) :
  (Cleanup;; k) w = k (with_vars (set_pid (pid (vars w)) initial) w).
Proof. unfold bind. now rewrite Cleanup_resets. Qed.

(** X13. [Cleanup] followed by [Init] installs a logger that does not
    depend on the configuration before the teardown: from any two worlds on
    the same host the installed handles are equal, with the declared
    minimum level (info), the rotating file as only sink, no key cleared,
    and the console renderer present. *)
Theorem Cleanup_then_Init_forgets_configuration (w1 w2 : World) :
  os w1 = os w2 -> (exists h, os_Hostname (os w1) = ok h) ->
  exists z,
    zapLogger (vars (snd ((Cleanup;; Init) w1))) = Some z
    /\ zapLogger (vars (snd ((Cleanup;; Init) w2))) = Some z
    /\ zap.level z = InfoLevel
    /\ zap.sinks z = [newRotator initial]
    /\ zap.enc z = encoderConfig initial
    /\ pretty (vars (snd ((Cleanup;; Init) w1))) = Some newPrettyLogger.
Proof.
  intros Hos Hh. rewrite !Cleanup_then.
  set (c1 := with_vars (set_pid (pid (vars w1)) initial) w1).
  set (c2 := with_vars (set_pid (pid (vars w2)) initial) w2).
  assert (Hh1 : hostname_available c1) by (right; exact Hh).
  assert (Hh2 : hostname_available c2) by (right; subst c2; cbn; now rewrite <- Hos).
  destruct (Init_world c1 eq_refl Hh1) as (_ & Hz1 & Hp1 & _).
  destruct (Init_world c2 eq_refl Hh2) as (_ & Hz2 & _).
  exists (Init_handle c1). split; [exact Hz1|]. split.
  - rewrite Hz2. f_equal. unfold Init_handle, enrichment, version_field,
      pid_field, version_in. subst c1 c2. cbn. now rewrite Hos.
  - split; [reflexivity|]. split; [reflexivity|]. split; [reflexivity|exact Hp1].
Qed.

Lemma Cleanup_then_Init_forgets_configuration_witness :
  zapLogger (vars (snd ((Cleanup;; Init)
                          (after_Init (fun s => set_omitKeys [TimeKey]
                                                  (set_outputType ConsoleOutput s)) box))))
  = zapLogger (vars (snd ((Cleanup;; Init) (world initial box)))).
Proof.
  destruct (Cleanup_then_Init_forgets_configuration
              (after_Init (fun s => set_omitKeys [TimeKey]
                                      (set_outputType ConsoleOutput s)) box)
              (world initial box)) as (z & H1 & H2 & _).
  - reflexivity.
  - exists "box". reflexivity.
  - now rewrite H1, H2.
Defined.

(** X14. [Sync] and the signal goroutine do not check for initialization
    themselves. While no logger is installed and the mode is Pretty or File,
    [Sync] dereferences the nil handle and panics; a signal that arrives
    after [SyncWhenStop] ends the process with the diagnostic of [checkInit]
    and exit code 1, without a flush, and not with 130 or 143. *)
Theorem flush_without_logger (w : World) (s : Signal) :
  zapLogger (vars w) = None ->
  outputType (vars w) = PrettyOutput \/ outputType (vars w) = FileOutput ->
  s = SIGINT \/ s = SIGTERM ->
  Sync w = (Panicked nil_dereference, w)
  /\ (SyncWhenStop;; deliver s) w
     = (Exited 1,
        with_waiting []
          (with_trace
             (trace w ++ [SignalNotify [SIGINT; SIGTERM]; StdLog not_initialized]) w)).
Proof.
  intros Hz Ho Hs.
  unfold SyncWhenStop, deliver, onSignal, Debug, logger, checkInit, Sync.
  explode w. subst.
  destruct Ho, Hs; subst; tidy; split; reflexivity.
Qed.

Lemma flush_without_logger_witness :
  fst ((Cleanup;; Sync) first_run) = Panicked nil_dereference
  /\ fst ((Cleanup;; SyncWhenStop;; deliver SIGTERM) first_run) = Exited 1.
Proof.
  rewrite !Cleanup_then.
  destruct (flush_without_logger
              (with_vars (set_pid (pid (vars first_run)) initial) first_run) SIGTERM)
    as [H1 H2].
  - reflexivity.
  - left. reflexivity.
  - right. reflexivity.
  - rewrite H1, H2. split; reflexivity.
Defined.

(** X15. When the engine's flush fails, [Sync] prints the error on the
    standard logger and returns normally: the failure is not propagated,
    the variables are unchanged and the console renderer's traces are still
    printed. *)
Theorem Sync_survives_flush_failure (w : World) (z : zap.Logger) (msg : string) :
  zapLogger (vars w) = Some z ->
  outputType (vars w) = PrettyOutput \/ outputType (vars w) = FileOutput ->
  sync_error (os w) = Some msg ->
  fst (Sync w) = Done tt
  /\ vars (snd (Sync w)) = vars w
  /\ diagnostics (trace (snd (Sync w))) = (diagnostics (trace w) ++ [msg])%list
  /\ flushes (trace (snd (Sync w))) = S (flushes (trace w))
  /\ forall p, pretty (vars w) = Some p ->
       last (trace (snd (Sync w))) = Some (PrettyPrintTraces p).
Proof.
  intros Hz Ho He. rewrite (Sync_runs w z Hz Ho), He.
  cbn [fst snd vars trace with_trace].
  split; [reflexivity|]. split; [reflexivity|]. split; [|split].
  - unfold diagnostics. rewrite !map_app, !concat_app.
    destruct (pretty (vars w)); cbn; now rewrite ?app_nil_r.
  - rewrite !flushes_app. destruct (pretty (vars w)); cbn; lia.
  - intros p ->. rewrite !app_assoc. apply last_snoc.
Qed.

Lemma Sync_survives_flush_failure_witness :
  fst (Sync (with_sync_error (Some "sync /dev/stderr: invalid argument")
               (after_Init id box))) = Done tt.
Proof.
  destruct (Sync_survives_flush_failure
              (with_sync_error (Some "sync /dev/stderr: invalid argument")
                 (after_Init id box))
              (Init_handle (world initial box))
              "sync /dev/stderr: invalid argument") as [H _].
  - reflexivity.
  - left. reflexivity.
  - reflexivity.
  - exact H.
Defined.

(** ** Naming twice *)

(** X16. Two calls of [Named] on the same logger leave one logger at the
    same address: its engine handle has been named twice, its console
    prefix is that of the last name only, and its persistent fields are
    unchanged. *)
Theorem Named_twice (w : World) (l : nat) (v : Logger.t) (a b : string) :
  heap w !! l = Some v ->
  (n <- Logger_Named l a;; Logger_Named n b) w
    = (Done l,
       with_heap
         (<[l := {| Logger.pretty :=
                      SetPrefix (String.append b " | ") <$> Logger.pretty v;
                    Logger.zapLogger :=
                      zap.Named b (zap.Named a (Logger.zapLogger v));
                    Logger.fields := Logger.fields v |}]> (heap w)) w).
Proof.
  intros Hv.
  rewrite (bind_Done (Logger_Named l a) _ w _ l (Logger_Named_runs w l v a Hv)).
  rewrite (Logger_Named_runs _ l (named a v) b)
    by (cbn; apply lookup_insert_eq).
  cbn [heap with_heap]. rewrite insert_insert_eq.
  unfold named. cbn. destruct w, (Logger.pretty v); reflexivity.
Qed.

Lemma Named_twice_witness :
  (n <- Logger_Named 1 "api";; Logger_Named n "users") (world initial box)
  = (Done 1%nat,
     with_heap
       {[ 1%nat := {| Logger.pretty := Some {| Prefix := "users | " |};
                      Logger.zapLogger :=
                        zap.Named "users" (zap.Named "api" file_handle);
                      Logger.fields := [zap.String "user_name" "Alice"] |} ]}
       (world initial box)).
Proof.
  rewrite (Named_twice (world initial box) 1 alice "api" "users" eq_refl).
  cbn [heap world]. now rewrite insert_singleton_eq.
Defined.

(** ** The console renderer *)

(** X17. After a teardown, [Init] creates the console renderer in Pretty
    mode and in no other mode; accordingly an emission through the free
    functions is rendered on the console in Pretty mode only, and handed to
    the engine in every mode. *)
Theorem console_renderer_only_in_Pretty (w : World) (o : Output) (L : Level)
    (message : string) (fields : list zap.Field) :
  (exists h, os_Hostname (os w) = ok h) -> In L severities ->
  let w' := snd ((Cleanup;; SetOutput o;; Init) w) in
  pretty (vars w') = (if Output_eqb o PrettyOutput then Some newPrettyLogger else None)
  /\ exists z,
       zapLogger (vars w') = Some z
       /\ trace (snd (emitAt L message fields w'))
          = (trace w'
             ++ (if Output_eqb o PrettyOutput
                 then [PrettyLog newPrettyLogger message L fields]
                 else [])
             ++ [ZapLog z L message fields])%list.
Proof.
  intros Hh HL w'. subst w'. rewrite Cleanup_then.
  set (c := with_vars (set_outputType o (set_pid (pid (vars w)) initial)) w).
  assert (E : (SetOutput o;; Init)
                (with_vars (set_pid (pid (vars w)) initial) w) = Init c)
    by reflexivity.
  rewrite E.
  assert (Hc : hostname_available c) by (right; exact Hh).
  destruct (Init_world c eq_refl Hc) as (_ & Hz & Hp & _).
  assert (Hp' : pretty (vars (snd (Init c)))
                = if Output_eqb o PrettyOutput then Some newPrettyLogger else None)
    by (rewrite Hp; unfold Init_pretty; destruct o; reflexivity).
  split; [exact Hp'|].
  exists (Init_handle c). split; [exact Hz|].
  destruct (emitAt_forwards L (snd (Init c)) (Init_handle c) message fields HL Hz)
    as [Ht _].
  rewrite Ht, Hp'. destruct (Output_eqb o PrettyOutput); reflexivity.
Qed.

Lemma console_renderer_only_in_Pretty_witness :
  pretty (vars (snd ((Cleanup;; SetOutput FileOutput;; Init) first_run))) = None.
Proof.
  destruct (console_renderer_only_in_Pretty first_run FileOutput InfoLevel
              "USER_INFO" []) as [H _].
  - exists "box". reflexivity.
  - cbn. tauto.
  - exact H.
Defined.

(** ** Level names *)



(** ** The earlier sink list *)

(** X19. The [getSyncers] of the earlier [zl.go] never writes to standard
    output; the current [getSyncers] builds the same list exactly when
    stdout has not been selected or the mode has no console sink. *)
Theorem earlier_getSyncers_is_stderr_only (s : State) :
  ~ In zapcore.Stdout (earlier_getSyncers s)
  /\ (getSyncers s = earlier_getSyncers s
      <-> isStdOut s = false
          \/ outputType s = PrettyOutput \/ outputType s = FileOutput).
Proof.
  unfold earlier_getSyncers, getSyncers, getConsoleOutput, newRotator, append.
  split.
  - destruct (outputType s); cbn; intuition discriminate.
  - destruct (outputType s), (isStdOut s); cbn;
      intuition (discriminate || congruence).
Qed.
